(** * Storefront catalog: query layer, HTTP route and "load more" component

    A shallow embedding of

    - [lib/supabase/products.ts]   (the catalog query layer),
    - [lib/supabase/server.ts]     ([createClient]),
    - [app/api/products/route.ts]  ([GET /api/products]),
    - [components/ProductListPagination.tsx] (the incremental listing),
    - [app/products/page.tsx]      (the first page, the component's props
                                    and the sort links),
    - [lib/constants/categories.ts] (the category table and its lookups),
    - [components/ProductCard.tsx], [app/products/[id]/page.tsx] and
      [app/page.tsx]               (what the card and the pages decide),

    followed by the properties of the specification that concern them and
    by further properties read off the code. *)

From Stdlib Require Import ZArith List String Ascii Bool Lia QArith Permutation.
From Stdlib Require Import DecimalString DecimalPos.
Import ListNotations.
Local Open Scope string_scope.
Local Open Scope list_scope.
Local Open Scope Z_scope.

(* ===================================================================== *)
(** ** JavaScript values used by the program                              *)
(* ===================================================================== *)

(** A JS [number] as the program meets it: the result of [parseInt] and
    of integer arithmetic on it.  [Num z] is the integer [z], [NaN] the
    not-a-number value, [Infinity false] and [Infinity true] the two
    infinities; [Num 0] stands for both zeros, which print alike and
    which the program never tells apart.  [parseInt] only yields
    integers that are doubles; the sums and differences below are exact,
    as they are in JS for integers of magnitude up to 2^53. *)
Inductive number : Type :=
| NaN
| Num (z : Z)
| Infinity (negative : bool).

Definition nadd (a b : number) : number :=
  match a, b with
  | Num x, Num y => Num (x + y)
  | Infinity s, Num _ => Infinity s
  | Num _, Infinity s => Infinity s
  | Infinity s, Infinity t => if Bool.eqb s t then Infinity s else NaN
  | _, _ => NaN
  end.

Definition nsub (a b : number) : number :=
  match a, b with
  | Num x, Num y => Num (x - y)
  | Infinity s, Num _ => Infinity s
  | Num _, Infinity s => Infinity (negb s)
  | Infinity s, Infinity t => if Bool.eqb s t then NaN else Infinity s
  | _, _ => NaN
  end.

(** Truthiness of a string: only the empty string is falsy. *)
Definition truthy_string (s : string) : bool :=
  match s with
  | EmptyString => false
  | String _ _ => true
  end.

(** Truthiness of [string | null | undefined]. *)
Definition truthy_ostring (s : option string) : bool :=
  match s with
  | Some s => truthy_string s
  | None => false
  end.

(** [s || d] at type [string | null | undefined]. *)
Definition or_string (s : option string) (d : string) : string :=
  match s with
  | Some s => if truthy_string s then s else d
  | None => d
  end.

(** [s || undefined]. *)
Definition or_undefined (s : option string) : option string :=
  match s with
  | Some s => if truthy_string s then Some s else None
  | None => None
  end.

(** [xs || []]: an array is truthy, [null] is not. *)
Definition or_empty {A : Type} (xs : option (list A)) : list A :=
  match xs with
  | Some l => l
  | None => []
  end.

(** [n || 0] at type [number | null]: [null] and [0] are falsy. *)
Definition or_zero (n : option Z) : Z :=
  match n with
  | Some z => if z =? 0 then 0 else z
  | None => 0
  end.

(** A default parameter value: used when the argument is [undefined]. *)
Definition default_arg {A : Type} (d : A) (x : option A) : A :=
  match x with
  | Some a => a
  | None => d
  end.

(** [haystack.includes(needle)]. *)
Fixpoint includes (needle haystack : string) : bool :=
  if String.prefix needle haystack then true
  else match haystack with
       | EmptyString => false
       | String _ rest => includes needle rest
       end.

(** What a [throw] carries: an [Error] object with its message, or any
    other thrown value (kept by its string rendering). *)
Inductive Exn : Type :=
| ErrorObj (message : string)
| Thrown_value (rendering : string).

(** The result of running a piece of code: it returns or it throws. *)
Inductive Outcome (A : Type) : Type :=
| Returned (a : A)
| Thrown (e : Exn).
Arguments Returned {A} a.
Arguments Thrown {A} e.

(* ===================================================================== *)
(** ** [types/product.ts]                                                 *)
(* ===================================================================== *)

Record Product : Type := mkProduct {
  id : string;
  name : string;
  description : option string;
  price : Q;
  category : option string;
  stock_quantity : Z;
  is_active : bool;
  created_at : string;
  updated_at : string
}.

(* ===================================================================== *)
(** ** The query builder of the data-store client                         *)
(* ===================================================================== *)

(** The right-hand side of an [.eq(column, value)] filter. *)
Inductive FilterValue : Type :=
| FBool (b : bool)
| FText (s : string).

(** A query as the builder accumulates it. *)
Record Query : Type := mkQuery {
  q_table : string;
  q_select : string;
  q_count : option string;
  q_filters : list (string * FilterValue);
  q_order : list (string * bool);          (* column, ascending *)
  q_range : option (number * number);       (* from, to (inclusive) *)
  q_limit : option number;
  q_single : bool
}.

Definition from (table : string) : Query :=
  {| q_table := table; q_select := ""; q_count := None; q_filters := [];
     q_order := []; q_range := None; q_limit := None; q_single := false |}.

Definition select (columns : string) (count : option string) (q : Query) : Query :=
  {| q_table := q_table q; q_select := columns; q_count := count;
     q_filters := q_filters q; q_order := q_order q; q_range := q_range q;
     q_limit := q_limit q; q_single := q_single q |}.

Definition eq_ (column : string) (v : FilterValue) (q : Query) : Query :=
  {| q_table := q_table q; q_select := q_select q; q_count := q_count q;
     q_filters := q_filters q ++ [(column, v)]; q_order := q_order q;
     q_range := q_range q; q_limit := q_limit q; q_single := q_single q |}.

Definition order (column : string) (ascending : bool) (q : Query) : Query :=
  {| q_table := q_table q; q_select := q_select q; q_count := q_count q;
     q_filters := q_filters q; q_order := q_order q ++ [(column, ascending)];
     q_range := q_range q; q_limit := q_limit q; q_single := q_single q |}.

Definition range (from_ to_ : number) (q : Query) : Query :=
  {| q_table := q_table q; q_select := q_select q; q_count := q_count q;
     q_filters := q_filters q; q_order := q_order q;
     q_range := Some (from_, to_); q_limit := q_limit q; q_single := q_single q |}.

Definition limit_ (n : number) (q : Query) : Query :=
  {| q_table := q_table q; q_select := q_select q; q_count := q_count q;
     q_filters := q_filters q; q_order := q_order q;
     q_range := q_range q; q_limit := Some n; q_single := q_single q |}.

Definition single (q : Query) : Query :=
  {| q_table := q_table q; q_select := q_select q; q_count := q_count q;
     q_filters := q_filters q; q_order := q_order q;
     q_range := q_range q; q_limit := q_limit q; q_single := true |}.

(** Method-call notation for the builder chain. *)
Notation "q '|>' f" := (f q) (at level 45, left associativity, only parsing).

(** The error object of a failed query. *)
Record PostgrestError : Type := mkError {
  message : string;
  details : string;
  hint : string;
  code : string
}.

(** [{ data, error, count }] of a query that yields rows. *)
Record Response : Type := mkResponse {
  data : option (list Product);
  error : option PostgrestError;
  count : option Z
}.

(** [{ data, error }] of a [.single()] query. *)
Record SingleResponse : Type := mkSingle {
  sdata : option Product;
  serror : option PostgrestError
}.

(* ===================================================================== *)
(** ** Effects: console output and exceptions                             *)
(* ===================================================================== *)

Inductive LogLine : Type :=
| console_warn (text : string)
| console_error (text : string) (info : list string).

(** A computation that may write to the console and may throw.  What was
    logged before a [throw] stays logged. *)
Definition M (A : Type) : Type := list LogLine -> Outcome A * list LogLine.

Definition ret {A} (a : A) : M A := fun log => (Returned a, log).

Definition bind {A B} (m : M A) (k : A -> M B) : M B :=
  fun log =>
    match m log with
    | (Returned a, log') => k a log'
    | (Thrown e, log') => (Thrown e, log')
    end.

Definition throw {A} (e : Exn) : M A := fun log => (Thrown e, log).

Definition try_catch {A} (body : M A) (handler : Exn -> M A) : M A :=
  fun log =>
    match body log with
    | (Returned a, log') => (Returned a, log')
    | (Thrown e, log') => handler e log'
    end.

Definition console (l : LogLine) : M unit := fun log => (Returned tt, log ++ [l]).

(** [await] of an external call whose outcome the world decides. *)
Definition await {A} (o : Outcome A) : M A := fun log => (o, log).

Notation "x <- m ;; k" := (bind m (fun x => k))
  (at level 61, m at next level, right associativity).
Notation "m ;;; k" := (bind m (fun _ => k))
  (at level 61, right associativity).

Definition outcome {A} (r : Outcome A * list LogLine) : Outcome A := fst r.
Definition logged {A} (r : Outcome A * list LogLine) : list LogLine := snd r.

(* ===================================================================== *)
(** ** The world outside the program                                      *)
(* ===================================================================== *)

(** Everything the query layer reads from outside: the two environment
    variables, the constructor of the data-store client (a library call
    that may throw), and what awaiting a built query yields (a response
    object, or an exception: for instance a failing session-token
    callback). *)
Record World : Type := mkWorld {
  NEXT_PUBLIC_SUPABASE_URL : option string;
  NEXT_PUBLIC_SUPABASE_ANON_KEY : option string;
  createSupabaseClient : string -> string -> Outcome unit;
  await_rows : Query -> Outcome Response;
  await_single : Query -> Outcome SingleResponse
}.

(** The message every propagating query function throws. *)
Definition load_error_message : string :=
  "상품을 불러오는 중 오류가 발생했습니다.".

Definition error_fields (e : PostgrestError) : list string :=
  [message e; details e; hint e; code e].

(* ===================================================================== *)
(** ** [lib/supabase/server.ts] and [lib/supabase/products.ts]            *)
(* ===================================================================== *)

(** [PaginatedProducts]. *)
Record PaginatedProducts : Type := mkPaginated {
  products : list Product;
  total : Z
}.

Section QueryLayer.

Variable w : World.

(** [createClient()] of [server.ts]. *)
Definition createClient : M unit :=
  let supabaseUrl := NEXT_PUBLIC_SUPABASE_URL w in
  let supabaseKey := NEXT_PUBLIC_SUPABASE_ANON_KEY w in
  if negb (truthy_ostring supabaseUrl) || negb (truthy_ostring supabaseKey)
  then throw (ErrorObj "Missing Supabase environment variables. Please check NEXT_PUBLIC_SUPABASE_URL and NEXT_PUBLIC_SUPABASE_ANON_KEY.")
  else await (createSupabaseClient w (or_string supabaseUrl "") (or_string supabaseKey "")).

(** The query of [getProducts]. *)
Definition getProducts_query : Query :=
  from "products"
    |> select "*" None
    |> eq_ "is_active" (FBool true)
    |> order "created_at" false.

Definition getProducts : M (list Product) :=
  _ <- createClient ;;
  r <- await (await_rows w getProducts_query) ;;
  match error r with
  | Some e =>
      console (console_error "Error fetching products:" (error_fields e)) ;;;
      throw (ErrorObj load_error_message)
  | None => ret (or_empty (data r))
  end.

(** The query of [getProductsByCategory]. *)
Definition getProductsByCategory_query (category : string) : Query :=
  from "products"
    |> select "*" None
    |> eq_ "is_active" (FBool true)
    |> eq_ "category" (FText category)
    |> order "created_at" false.

Definition getProductsByCategory (category : string) : M (list Product) :=
  _ <- createClient ;;
  r <- await (await_rows w (getProductsByCategory_query category)) ;;
  match error r with
  | Some e =>
      console (console_error "Error fetching products by category:" (error_fields e)) ;;;
      throw (ErrorObj load_error_message)
  | None => ret (or_empty (data r))
  end.

(** The query of [getFeaturedProducts]. *)
Definition getFeaturedProducts_query (limit : number) : Query :=
  from "products"
    |> select "*" None
    |> eq_ "is_active" (FBool true)
    |> order "created_at" false
    |> limit_ limit.

(** The test that only decides whether the extra warning is printed. *)
Definition table_missing (e : PostgrestError) : bool :=
  String.eqb (code e) "42P01"
  || String.eqb (code e) "PGRST301"
  || includes "relation" (message e)
  || includes "does not exist" (message e).

Definition getFeaturedProducts (limit : option number) : M (list Product) :=
  let limit := default_arg (Num 6) limit in
  try_catch
    (let supabaseUrl := NEXT_PUBLIC_SUPABASE_URL w in
     let supabaseKey := NEXT_PUBLIC_SUPABASE_ANON_KEY w in
     if negb (truthy_ostring supabaseUrl) || negb (truthy_ostring supabaseKey)
     then
       console (console_warn "Supabase environment variables are missing. Returning empty array.") ;;;
       ret []
     else
       _ <- createClient ;;
       r <- await (await_rows w (getFeaturedProducts_query limit)) ;;
       match error r with
       | Some e =>
           let errorInfo :=
             [or_string (Some (message e)) "Unknown error";
              or_string (Some (details e)) "null";
              or_string (Some (hint e)) "null";
              or_string (Some (code e)) "UNKNOWN"] in
           console (console_error "Error fetching featured products:" errorInfo) ;;;
           (if table_missing e
            then console (console_warn "Products table may not exist. Please run migrations or create the table.")
            else ret tt) ;;;
           ret []
       | None => ret (or_empty (data r))
       end)
    (fun err =>
       let errorMessage :=
         match err with
         | ErrorObj m => m
         | Thrown_value s => s
         end in
       console (console_error "Unexpected error in getFeaturedProducts:" [errorMessage]) ;;;
       ret []).

(** The [switch (sortBy)] of [getProductsWithPagination]. *)
Definition apply_sort (sortBy : string) (query : Query) : Query :=
  if String.eqb sortBy "price_asc" then query |> order "price" true
  else if String.eqb sortBy "price_desc" then query |> order "price" false
  else if String.eqb sortBy "newest" then query |> order "created_at" false
  else if String.eqb sortBy "oldest" then query |> order "created_at" true
  else if String.eqb sortBy "name_asc" then query |> order "name" true
  else query |> order "created_at" false.

(** The query [getProductsWithPagination] builds before awaiting it. *)
Definition getProductsWithPagination_query
    (category : option string) (sortBy : string) (limit offset : number) : Query :=
  let query :=
    from "products"
      |> select "*" (Some "exact")
      |> eq_ "is_active" (FBool true) in
  let query :=
    match category with
    | Some c => if truthy_string c then query |> eq_ "category" (FText c) else query
    | None => query
    end in
  let query := apply_sort sortBy query in
  query |> range offset (nsub (nadd offset limit) (Num 1)).

Definition getProductsWithPagination
    (category : option string) (sortBy : option string)
    (limit offset : option number) : M PaginatedProducts :=
  let sortBy := default_arg "newest" sortBy in
  let limit := default_arg (Num 12) limit in
  let offset := default_arg (Num 0) offset in
  _ <- createClient ;;
  r <- await (await_rows w (getProductsWithPagination_query category sortBy limit offset)) ;;
  match error r with
  | Some e =>
      console (console_error "Error fetching products with pagination:" (error_fields e)) ;;;
      throw (ErrorObj load_error_message)
  | None =>
      ret {| products := or_empty (data r); total := or_zero (count r) |}
  end.

(** The query of [getProductById]. *)
Definition getProductById_query (id_ : string) : Query :=
  from "products"
    |> select "*" None
    |> eq_ "id" (FText id_)
    |> eq_ "is_active" (FBool true)
    |> single.

(** [getProductById]: [Returned None] is the JS [null]. *)
Definition getProductById (id_ : string) : M (option Product) :=
  _ <- createClient ;;
  r <- await (await_single w (getProductById_query id_)) ;;
  match serror r with
  | Some e =>
      if String.eqb (code e) "PGRST116" then ret None
      else
        console (console_error "Error fetching product by id:" (error_fields e)) ;;;
        throw (ErrorObj load_error_message)
  | None => ret (sdata r)
  end.

End QueryLayer.

(* ===================================================================== *)
(** ** The data store                                                     *)
(* ===================================================================== *)

(** Modelled from the spec: the external tabular data store, which is not
    part of the repository.  Section 6 describes it as serving "select
    rows from products where <predicate> order by <column, direction>
    limit/offset <range>, optionally also returning an exact count of
    matching rows ignoring the range"; section 4.1 gives the range as the
    inclusive row range over the already filtered and sorted result, and
    the "no row" signal of a single-row lookup.  What the store does with
    a range that is not a pair of integers is not described; the model
    rejects it.  A store is its tables, by name. *)
Definition Store : Type := list (string * list Product).

Fixpoint find_table (name_ : string) (s : Store) : option (list Product) :=
  match s with
  | [] => None
  | (n, rows) :: rest => if String.eqb n name_ then Some rows else find_table name_ rest
  end.

(** Does row [p] satisfy the equality filter [f]? *)
Definition satisfies (p : Product) (f : string * FilterValue) : bool :=
  let (column, v) := f in
  match v with
  | FBool b =>
      if String.eqb column "is_active" then Bool.eqb (is_active p) b else false
  | FText s =>
      if String.eqb column "id" then String.eqb (id p) s
      else if String.eqb column "name" then String.eqb (name p) s
      else if String.eqb column "category" then
        match category p with
        | Some c => String.eqb c s
        | None => false
        end
      else if String.eqb column "created_at" then String.eqb (created_at p) s
      else if String.eqb column "updated_at" then String.eqb (updated_at p) s
      else false
  end.

Definition matching (filters : list (string * FilterValue)) (rows : list Product)
  : list Product :=
  filter (fun p => forallb (satisfies p) filters) rows.

(** Comparison of two rows on one column. *)
Definition compare_on (column : string) (a b : Product) : comparison :=
  if String.eqb column "price" then (price a ?= price b)%Q
  else if String.eqb column "created_at" then String.compare (created_at a) (created_at b)
  else if String.eqb column "updated_at" then String.compare (updated_at a) (updated_at b)
  else if String.eqb column "name" then String.compare (name a) (name b)
  else if String.eqb column "id" then String.compare (id a) (id b)
  else if String.eqb column "stock_quantity" then (stock_quantity a ?= stock_quantity b)%Z
  else Eq.

(** [a] may stand before [b] under the order clauses [ords]. *)
Fixpoint before (ords : list (string * bool)) (a b : Product) : bool :=
  match ords with
  | [] => true
  | (column, ascending) :: rest =>
      match (if ascending then compare_on column a b else compare_on column b a) with
      | Lt => true
      | Gt => false
      | Eq => before rest a b
      end
  end.

Fixpoint insert_row (ords : list (string * bool)) (p : Product) (l : list Product)
  : list Product :=
  match l with
  | [] => [p]
  | x :: rest => if before ords p x then p :: l else x :: insert_row ords p rest
  end.

(** Stable insertion sort of the rows by the order clauses. *)
Definition sort_rows (ords : list (string * bool)) (rows : list Product) : list Product :=
  fold_right (insert_row ords) [] rows.

(** Rows at positions [from_ .. to_], both ends included. *)
Definition inclusive_range {A : Type} (from_ to_ : Z) (l : list A) : list A :=
  firstn (Z.to_nat (to_ - Z.max 0 from_ + 1)) (skipn (Z.to_nat from_) l).

(** The window of the sorted rows a query asks for; [None] when a bound is
    not an integer. *)
Definition window (q : Query) (rows : list Product) : option (list Product) :=
  match q_range q, q_limit q with
  | Some (Num a, Num b), _ => Some (inclusive_range a b rows)
  | Some _, _ => None
  | None, Some (Num n) => Some (firstn (Z.to_nat n) rows)
  | None, Some _ => None
  | None, None => Some rows
  end.

Definition relation_missing (table : string) : PostgrestError :=
  {| message := ("relation " ++ table ++ " does not exist")%string;
     details := ""; hint := ""; code := "42P01" |}.

Definition bad_range : PostgrestError :=
  {| message := "invalid range"; details := ""; hint := ""; code := "PGRST103" |}.

Definition no_single_row : PostgrestError :=
  {| message := "JSON object requested, multiple (or no) rows returned";
     details := ""; hint := ""; code := "PGRST116" |}.

(** Modelled from the spec: the store serving a query that yields rows
    (filter, then order, then the window; the exact count is that of the
    filtered rows). *)
Definition store_rows (s : Store) (q : Query) : Response :=
  match find_table (q_table q) s with
  | None => {| data := None; error := Some (relation_missing (q_table q)); count := None |}
  | Some rows =>
      let hits := matching (q_filters q) rows in
      match window q (sort_rows (q_order q) hits) with
      | None => {| data := None; error := Some bad_range; count := None |}
      | Some page =>
          {| data := Some page; error := None;
             count := match q_count q with
                      | Some _ => Some (Z.of_nat (List.length hits))
                      | None => None
                      end |}
      end
  end.

(** Modelled from the spec: the store serving a [.single()] query (one
    row, or the "no row" signal). *)
Definition store_single (s : Store) (q : Query) : SingleResponse :=
  match find_table (q_table q) s with
  | None => {| sdata := None; serror := Some (relation_missing (q_table q)) |}
  | Some rows =>
      match matching (q_filters q) rows with
      | [p] => {| sdata := Some p; serror := None |}
      | _ => {| sdata := None; serror := Some no_single_row |}
      end
  end.

(** A world whose configuration is present and whose backend is the store. *)
Definition store_world (s : Store) : World :=
  {| NEXT_PUBLIC_SUPABASE_URL := Some "https://project.supabase.co";
     NEXT_PUBLIC_SUPABASE_ANON_KEY := Some "anon-key";
     createSupabaseClient := fun _ _ => Returned tt;
     await_rows := fun q => Returned (store_rows s q);
     await_single := fun q => Returned (store_single s q) |}.

(* ===================================================================== *)
(** ** [URLSearchParams], [parseInt] and [String]                         *)
(* ===================================================================== *)

(** [URLSearchParams]: an ordered list of name/value pairs. *)
Definition URLSearchParams : Type := list (string * string).

(** [params.get(name)]: the first value of that name, or [null]. *)
Fixpoint usp_get (name_ : string) (params : URLSearchParams) : option string :=
  match params with
  | [] => None
  | (n, v) :: rest => if String.eqb n name_ then Some v else usp_get name_ rest
  end.

Definition usp_delete (name_ : string) (params : URLSearchParams) : URLSearchParams :=
  filter (fun nv => negb (String.eqb (fst nv) name_)) params.

(** [params.set(name, value)]: overwrite the first pair of that name and
    drop the others, or append a new pair. *)
Fixpoint usp_set (name_ value : string) (params : URLSearchParams) : URLSearchParams :=
  match params with
  | [] => [(name_, value)]
  | (n, v) :: rest =>
      if String.eqb n name_ then (n, value) :: usp_delete name_ rest
      else (n, v) :: usp_set name_ value rest
  end.

(** Strings are held as their UTF-8 bytes.  The white space [parseInt]
    skips is the [WhiteSpace] and [LineTerminator] of the language: TAB,
    LF, VT, FF, CR, SP; U+00A0; U+1680; U+2000 to U+200A; U+2028,
    U+2029; U+202F; U+205F; U+3000; U+FEFF.  They take one, two or
    three bytes. *)
Definition is_white_space1 (c : ascii) : bool :=
  let n := nat_of_ascii c in
  (Nat.eqb n 9 || Nat.eqb n 10 || Nat.eqb n 11 || Nat.eqb n 12 || Nat.eqb n 13
   || Nat.eqb n 32)%bool.

Definition is_white_space2 (c1 c2 : ascii) : bool :=
  (Nat.eqb (nat_of_ascii c1) 194 && Nat.eqb (nat_of_ascii c2) 160)%bool.

Definition is_white_space3 (c1 c2 c3 : ascii) : bool :=
  let n1 := nat_of_ascii c1 in
  let n2 := nat_of_ascii c2 in
  let n3 := nat_of_ascii c3 in
  ((Nat.eqb n1 225 && Nat.eqb n2 154 && Nat.eqb n3 128)
   || (Nat.eqb n1 226 && Nat.eqb n2 128
       && ((Nat.leb 128 n3 && Nat.leb n3 138)
           || Nat.eqb n3 168 || Nat.eqb n3 169 || Nat.eqb n3 175))
   || (Nat.eqb n1 226 && Nat.eqb n2 129 && Nat.eqb n3 159)
   || (Nat.eqb n1 227 && Nat.eqb n2 128 && Nat.eqb n3 128)
   || (Nat.eqb n1 239 && Nat.eqb n2 187 && Nat.eqb n3 191))%bool.

(** A byte that starts a character of more than one byte. *)
Definition is_lead_byte (c : ascii) : bool := Nat.leb 192 (nat_of_ascii c).

Fixpoint trim_start (s : string) : string :=
  match s with
  | String c1 rest1 =>
      if is_white_space1 c1 then trim_start rest1
      else if is_lead_byte c1 then
        match rest1 with
        | String c2 rest2 =>
            if is_white_space2 c1 c2 then trim_start rest2
            else
              match rest2 with
              | String c3 rest3 =>
                  if is_white_space3 c1 c2 c3 then trim_start rest3 else s
              | EmptyString => s
              end
        | EmptyString => s
        end
      else s
  | EmptyString => EmptyString
  end.

(** The value of a decimal digit, or [None]. *)
Definition digit_value (c : ascii) : option Z :=
  let n := Z.of_nat (nat_of_ascii c) in
  if (48 <=? n) && (n <=? 57) then Some (n - 48) else None.

(** The value of the longest prefix of decimal digits, starting from the
    value [acc] of the digits read so far ([None]: no digit yet). *)
Fixpoint leading_digits (s : string) (acc : option Z) : option Z :=
  match s with
  | String c rest =>
      match digit_value c with
      | Some d => leading_digits rest (Some (10 * default_arg 0 acc + d))
      | None => acc
      end
  | EmptyString => acc
  end.

(** The sign [parseInt] reads, and the string after it. *)
Definition sign_of (s : string) : Z :=
  match s with
  | String c _ => if Ascii.eqb c "-" then -1 else 1
  | EmptyString => 1
  end.

Definition strip_sign (s : string) : string :=
  match s with
  | String c rest => if Ascii.eqb c "-" || Ascii.eqb c "+" then rest else s
  | EmptyString => s
  end.

(** The integer nearest to [m >= 0] among the doubles, ties to the even
    significand: below 2^53 every integer is a double; above, a double
    keeps 53 significant bits. *)
Definition round_to_double (m : Z) : Z :=
  if m <? 2 ^ 53 then m
  else
    let e := Z.log2 m - 52 in
    let q := m / 2 ^ e in
    let r := m mod 2 ^ e in
    let half := 2 ^ (e - 1) in
    let q := if (half <? r) || ((r =? half) && Z.odd q) then q + 1 else q in
    q * 2 ^ e.

(** The number value of [sign * m]: rounded to a double, an infinity
    from 2^1024 on. *)
Definition to_number (sign m : Z) : number :=
  let v := round_to_double m in
  if 2 ^ 1024 <=? v then Infinity (sign <? 0) else Num (sign * v).

(** [parseInt(s, 10)]: skip white space, read an optional sign, then the
    longest run of decimal digits; [NaN] when there is no digit, else the
    number value of the signed decimal numeral (correctly rounded, as the
    engines that run the route do). *)
Definition parseInt (s : string) : number :=
  let s := trim_start s in
  let sign := sign_of s in
  let s := strip_sign s in
  match leading_digits s None with
  | Some m => to_number sign m
  | None => NaN
  end.

(** [String(n)] for an integer [n] (of magnitude below 10^21, where JS
    prints all digits). *)
Definition String_ (n : Z) : string := NilZero.string_of_int (Z.to_int n).

(* ===================================================================== *)
(** ** [app/api/products/route.ts]                                        *)
(* ===================================================================== *)

Inductive JsonBody : Type :=
| page_body (products_ : list Product) (total_ : Z)
| error_body (error_ : string).

Record NextResponse : Type := mkNextResponse {
  status : Z;
  body : JsonBody
}.

Section Route.

Variable w : World.

(** The four values [GET] reads from the query string. *)
Definition GET_category (searchParams : URLSearchParams) : option string :=
  or_undefined (usp_get "category" searchParams).

Definition GET_sortBy (searchParams : URLSearchParams) : string :=
  or_string (usp_get "sort" searchParams) "newest".

Definition GET_limit (searchParams : URLSearchParams) : number :=
  parseInt (or_string (usp_get "limit" searchParams) "12").

Definition GET_offset (searchParams : URLSearchParams) : number :=
  parseInt (or_string (usp_get "offset" searchParams) "0").

Definition GET (searchParams : URLSearchParams) : M NextResponse :=
  try_catch
    (let category := GET_category searchParams in
     let sortBy := GET_sortBy searchParams in
     let limit := GET_limit searchParams in
     let offset := GET_offset searchParams in
     page <- getProductsWithPagination w category (Some sortBy) (Some limit) (Some offset) ;;
     ret {| status := 200; body := page_body (products page) (total page) |})
    (fun error_ =>
       console (console_error "Error in products API route:"
                  [match error_ with ErrorObj m => m | Thrown_value v => v end]) ;;;
       ret {| status := 500; body := error_body load_error_message |}).

End Route.

(* ===================================================================== *)
(** ** [components/ProductListPagination.tsx]                             *)
(* ===================================================================== *)

Record ProductListPaginationProps : Type := mkProps {
  initialProducts : list Product;
  total_ : Z;
  category_ : option string;
  sortBy_ : string;
  initialLimit : Z
}.

(** A fetch that has been issued and has not settled: the request, and
    the values of [products] and [limit] its closure holds. *)
Record InFlight : Type := mkInFlight {
  request : URLSearchParams;
  seen_products : list Product;
  seen_limit : Z
}.

(** The component instance: its two state cells, the [isPending] flag of
    [useTransition] (true from [startTransition] until the asynchronous
    action has settled), the requests in flight, and what the user has
    been shown through [alert]. *)
Record Component : Type := mkComponent {
  products_state : list Product;
  limit_state : Z;
  isPending : bool;
  in_flight : list InFlight;
  alerts : list string;
  console_ : list LogLine
}.

(** What one render holds: the values of [products], [limit] and
    [isPending] that its JSX and its [loadMore] closure read. *)
Record Rendered : Type := mkRendered {
  r_products : list Product;
  r_limit : Z;
  r_isPending : bool
}.

(** What the awaited [fetch] and [response.json()] can give. *)
Record ResponseJson : Type := mkJson {
  json_products : option (list Product);   (* [data.products], maybe undefined *)
  json_total : option Z
}.

Inductive FetchResult : Type :=
| fetch_rejected (e : Exn)
| fetch_response (ok : bool) (json : Outcome ResponseJson).

Definition retry_notice : string :=
  "상품을 불러오는 중 오류가 발생했습니다. 다시 시도해주세요.".

Section ProductListPagination.

Variable props : ProductListPaginationProps.

(** The first render: [useState(initialProducts)], [useState(initialLimit)]. *)
Definition mount : Component :=
  {| products_state := initialProducts props; limit_state := initialLimit props;
     isPending := false; in_flight := []; alerts := []; console_ := [] |}.

(** A render reads the state cells; its JSX and its [loadMore] closure
    keep these values until the next render. *)
Definition render (c : Component) : Rendered :=
  {| r_products := products_state c; r_limit := limit_state c;
     r_isPending := isPending c |}.

(** [const hasMore = products.length < total], as render [v] computes it. *)
Definition render_hasMore (v : Rendered) : bool :=
  Z.of_nat (List.length (r_products v)) <? total_ props.

(** The same on the state, as the next render will compute it. *)
Definition hasMore (c : Component) : bool :=
  Z.of_nat (List.length (products_state c)) <? total_ props.

(** The query string [loadMore] builds from the [limit] and [products]
    of its render. *)
Definition request_params (limit : Z) (products_ : list Product) : URLSearchParams :=
  let params : URLSearchParams := [] in
  let params :=
    if truthy_ostring (category_ props)
    then usp_set "category" (or_string (category_ props) "") params
    else params in
  let params := usp_set "sort" (sortBy_ props) params in
  let params := usp_set "limit" (String_ (limit + 12)) params in
  usp_set "offset" (String_ (Z.of_nat (List.length products_))) params.

(** [loadMore()] of render [v], called in state [c], up to its first
    [await]: the transition starts and the request goes out.  The
    function has no guard of its own. *)
Definition loadMore_of (v : Rendered) (c : Component) : Component :=
  {| products_state := products_state c; limit_state := limit_state c;
     isPending := true;
     in_flight := in_flight c ++
                  [{| request := request_params (r_limit v) (r_products v);
                      seen_products := r_products v;
                      seen_limit := r_limit v |}];
     alerts := alerts c; console_ := console_ c |}.

(** The [catch] branch of [loadMore]. *)
Definition on_failure (c : Component) (e : Exn) : Component :=
  {| products_state := products_state c; limit_state := limit_state c;
     isPending := isPending c; in_flight := in_flight c;
     alerts := alerts c ++ [retry_notice];
     console_ := console_ c ++
                 [console_error "Error loading more products:"
                    [match e with ErrorObj m => m | Thrown_value v => v end]] |}.

(** The rest of [loadMore] once the fetch [f] has settled with [r]. *)
Definition resume (c : Component) (f : InFlight) (r : FetchResult) : Component :=
  match r with
  | fetch_rejected e => on_failure c e
  | fetch_response false _ => on_failure c (ErrorObj load_error_message)
  | fetch_response true (Thrown e) => on_failure c e
  | fetch_response true (Returned data_) =>
      match json_products data_ with
      | None => on_failure c (ErrorObj "data.products is not iterable")
      | Some more =>
          {| products_state := seen_products f ++ more;
             limit_state := seen_limit f + 12;
             isPending := isPending c; in_flight := in_flight c;
             alerts := alerts c; console_ := console_ c |}
      end
  end.

(** The oldest request in flight settles with [r]; the transition is
    over when no action is left. *)
Definition settle (c : Component) (r : FetchResult) : Component :=
  match in_flight c with
  | [] => c
  | f :: rest =>
      let c' := resume c f r in
      {| products_state := products_state c'; limit_state := limit_state c';
         isPending := negb (match rest with [] => true | _ => false end);
         in_flight := rest;
         alerts := alerts c'; console_ := console_ c' |}
  end.

(** The button of render [v]: present iff [hasMore], [disabled={isPending}],
    both as that render has them. *)
Definition button_rendered (v : Rendered) : bool := render_hasMore v.
Definition button_disabled (v : Rendered) : bool := r_isPending v.

(** A click event that reaches the page as render [v] shows it, in state
    [c]: [onClick={loadMore}] fires only on a rendered, enabled button,
    and calls the [loadMore] of that render.  Until the component
    renders again the button stays as it is, whatever the state. *)
Definition press (v : Rendered) (c : Component) : Component :=
  if button_rendered v && negb (button_disabled v) then loadMore_of v c else c.

(** The request, [loadMore] and a click when the component has rendered
    its current state [c]. *)
Definition loadMore_params (c : Component) : URLSearchParams :=
  request_params (limit_state c) (products_state c).

Definition loadMore (c : Component) : Component := loadMore_of (render c) c.

Definition click (c : Component) : Component := press (render c) c.

(** A run in which the component has rendered again before each click. *)
Inductive Event : Type :=
| Click
| Settle (r : FetchResult).

Definition step (c : Component) (e : Event) : Component :=
  match e with
  | Click => click c
  | Settle r => settle c r
  end.

Definition run (events : list Event) : Component :=
  fold_left step events mount.

End ProductListPagination.

(** The HTTP exchange of one request with the route. *)
Definition serve (w : World) (params : URLSearchParams) : FetchResult :=
  match outcome (GET w params []) with
  | Returned resp =>
      fetch_response ((200 <=? status resp) && (status resp <=? 299))
        (Returned
           match body resp with
           | page_body ps t => {| json_products := Some ps; json_total := Some t |}
           | error_body _ => {| json_products := None; json_total := None |}
           end)
  | Thrown e => fetch_rejected e
  end.

(* ===================================================================== *)
(** ** [app/products/page.tsx]                                            *)
(* ===================================================================== *)

(** The first page and the props the page hands to the component;
    [None] when the page renders its empty state instead. *)
Definition ProductsPage (w : World) (category sort : option string)
  : M (option ProductListPaginationProps) :=
  let selectedCategory := category in
  let sortBy := or_string sort "newest" in
  page <- getProductsWithPagination w selectedCategory (Some sortBy)
            (Some (Num 12)) (Some (Num 0)) ;;
  if 0 <? Z.of_nat (List.length (products page))
  then ret (Some {| initialProducts := products page; total_ := total page;
                    category_ := selectedCategory; sortBy_ := sortBy;
                    initialLimit := 12 |})
  else ret None.

(* ===================================================================== *)
(** ** Definitions used to state the properties                           *)
(* ===================================================================== *)

(** The backend configuration is present and the client can be built. *)
Definition configured (w : World) : Prop :=
  truthy_ostring (NEXT_PUBLIC_SUPABASE_URL w) = true /\
  truthy_ostring (NEXT_PUBLIC_SUPABASE_ANON_KEY w) = true /\
  createSupabaseClient w (or_string (NEXT_PUBLIC_SUPABASE_URL w) "")
    (or_string (NEXT_PUBLIC_SUPABASE_ANON_KEY w) "") = Returned tt.

(** The filter clause of a page request, in the words of the
    specification: always [isActive == true]; additionally
    [category == category] iff a non-empty category is given. *)
Definition spec_page_filter (category_arg : option string) (p : Product) : bool :=
  is_active p &&
  match category_arg with
  | Some c =>
      if truthy_string c
      then match category p with
           | Some pc => String.eqb pc c
           | None => false
           end
      else true
  | None => true
  end.

(** The rows an operation hands to its caller; none when it throws. *)
Definition shown {A : Type} (rows_of : A -> list Product) (o : Outcome A)
  : list Product :=
  match o with
  | Returned a => rows_of a
  | Thrown _ => []
  end.

Definition option_rows (p : option Product) : list Product :=
  match p with
  | Some x => [x]
  | None => []
  end.

(** The value of a decimal numeral read left to right from [acc]. *)
Fixpoint uint_value (d : Decimal.uint) (acc : Z) : Z :=
  match d with
  | Decimal.Nil => acc
  | Decimal.D0 l => uint_value l (10 * acc + 0)
  | Decimal.D1 l => uint_value l (10 * acc + 1)
  | Decimal.D2 l => uint_value l (10 * acc + 2)
  | Decimal.D3 l => uint_value l (10 * acc + 3)
  | Decimal.D4 l => uint_value l (10 * acc + 4)
  | Decimal.D5 l => uint_value l (10 * acc + 5)
  | Decimal.D6 l => uint_value l (10 * acc + 6)
  | Decimal.D7 l => uint_value l (10 * acc + 7)
  | Decimal.D8 l => uint_value l (10 * acc + 8)
  | Decimal.D9 l => uint_value l (10 * acc + 9)
  end.

(** The number value of the integer [z]: [z] rounded to a double. *)
Definition number_of_Z (z : Z) : number :=
  to_number (if z <? 0 then -1 else 1) (Z.abs z).

(** A query-string value that begins (after white space and an optional
    sign) with a decimal digit. *)
Definition starts_with_integer (s : string) : bool :=
  match strip_sign (trim_start s) with
  | String c _ => match digit_value c with Some _ => true | None => false end
  | EmptyString => false
  end.

(** The failures [getFeaturedProducts] can meet: configuration missing,
    the client constructor throwing, the awaited query throwing, or the
    backend answering with an error object. *)
Definition featured_failure (w : World) (limit : option number) : Prop :=
  truthy_ostring (NEXT_PUBLIC_SUPABASE_URL w) = false
  \/ truthy_ostring (NEXT_PUBLIC_SUPABASE_ANON_KEY w) = false
  \/ (exists e,
        createSupabaseClient w (or_string (NEXT_PUBLIC_SUPABASE_URL w) "")
          (or_string (NEXT_PUBLIC_SUPABASE_ANON_KEY w) "") = Thrown e)
  \/ (exists e,
        await_rows w (getFeaturedProducts_query (default_arg (Num 6) limit)) = Thrown e)
  \/ (exists r e,
        await_rows w (getFeaturedProducts_query (default_arg (Num 6) limit)) = Returned r
        /\ error r = Some e).

(** A world without backend configuration. *)
Definition unconfigured_world : World :=
  {| NEXT_PUBLIC_SUPABASE_URL := None;
     NEXT_PUBLIC_SUPABASE_ANON_KEY := None;
     createSupabaseClient := fun _ _ => Returned tt;
     await_rows := fun _ => Thrown (ErrorObj "unreachable");
     await_single := fun _ => Thrown (ErrorObj "unreachable") |}.

(** A configured world whose backend cannot be reached. *)
Definition unreachable_world : World :=
  {| NEXT_PUBLIC_SUPABASE_URL := Some "https://project.supabase.co";
     NEXT_PUBLIC_SUPABASE_ANON_KEY := Some "anon-key";
     createSupabaseClient := fun _ _ => Returned tt;
     await_rows := fun _ => Thrown (ErrorObj "fetch failed");
     await_single := fun _ => Thrown (ErrorObj "fetch failed") |}.

(** A configured world whose backend answers every query with nulls and
    no error. *)
Definition null_world : World :=
  {| NEXT_PUBLIC_SUPABASE_URL := Some "https://project.supabase.co";
     NEXT_PUBLIC_SUPABASE_ANON_KEY := Some "anon-key";
     createSupabaseClient := fun _ _ => Returned tt;
     await_rows := fun _ => Returned {| data := None; error := None; count := None |};
     await_single := fun _ => Returned {| sdata := None; serror := None |} |}.

(** A fetch result that takes [loadMore] into its [catch] branch. *)
Definition failed (r : FetchResult) : bool :=
  match r with
  | fetch_rejected _ => true
  | fetch_response false _ => true
  | fetch_response true (Thrown _) => true
  | fetch_response true (Returned data_) =>
      match json_products data_ with
      | None => true
      | Some _ => false
      end
  end.

(** No request is in flight and the transition is over. *)
Definition idle (c : Component) : Prop :=
  in_flight c = [] /\ isPending c = false.

(** Exactly one request is in flight; it was issued from the values the
    component still holds. *)
Definition busy (props : ProductListPaginationProps) (c : Component) : Prop :=
  isPending c = true /\
  in_flight c = [{| request := loadMore_params props c;
                    seen_products := products_state c;
                    seen_limit := limit_state c |}].

(** A catalog of thirty active products, newest first by decreasing number. *)
Definition sample_product (i : nat) : Product :=
  {| id := ("p" ++ String_ (Z.of_nat i))%string;
     name := ("item " ++ String_ (Z.of_nat i))%string;
     description := None;
     price := (Z.of_nat i * 1000) # 1;
     category := Some "shower";
     stock_quantity := 5;
     is_active := true;
     created_at := ("2025-01-" ++ (if Nat.ltb i 10 then "0" else "")
                     ++ String_ (Z.of_nat i))%string;
     updated_at := "2025-02-01" |}.

Definition thirty_products : list Product := map sample_product (seq 1 30).

Definition catalog30 : Store := [("products", thirty_products)].

(** The props the products page hands over for [catalog30]. *)
Definition props30 : ProductListPaginationProps :=
  match outcome (ProductsPage (store_world catalog30) None None []) with
  | Returned (Some props) => props
  | _ => {| initialProducts := []; total_ := 0; category_ := None;
            sortBy_ := "newest"; initialLimit := 12 |}
  end.

(* ===================================================================== *)
(** ** [lib/constants/categories.ts]                                      *)
(* ===================================================================== *)

Record Category : Type := mkCategory {
  path : string;
  dbValue : string;
  label : string
}.

Definition CATEGORIES : list Category :=
  [ {| path := "shower"; dbValue := "shower"; label := "샤워용품" |};
    {| path := "bath"; dbValue := "bath"; label := "욕조용품" |};
    {| path := "sink"; dbValue := "sink"; label := "세면대" |};
    {| path := "accessories"; dbValue := "accessories"; label := "액세서리" |} ].

Definition getCategoryByPath (path_ : string) : option Category :=
  find (fun cat => String.eqb (path cat) path_) CATEGORIES.

Definition getCategoryByDbValue (dbValue_ : string) : option Category :=
  find (fun cat => String.eqb (dbValue cat) dbValue_) CATEGORIES.

(* ===================================================================== *)
(** ** [components/ProductCard.tsx]                                       *)
(* ===================================================================== *)

Definition sold_out : string := "품절".
Definition low_stock : string := "재고 부족".

(** [getCategoryEmoji] of [ProductCard.tsx]. *)
Definition getCategoryEmoji (category_arg : option string) : string :=
  match category_arg with
  | Some c =>
      if String.eqb c "shower" then "🚿"
      else if String.eqb c "bath" then "🛁"
      else if String.eqb c "sink" then "💧"
      else if String.eqb c "accessories" then "📦"
      else "🛍️"
  | None => "🛍️"
  end.

(** What a product card shows (the currency formatting of the price is
    the platform's and is left out). *)
Record ProductCardView : Type := mkCard {
  card_href : string;
  card_badge : option string;        (* the stock badge, when rendered *)
  card_badge_red : bool;             (* red for sold out, yellow otherwise *)
  card_emoji : string;
  card_name : string;
  card_description : option string;  (* the description, when rendered *)
  card_stock_line : option Z         (* the stock count, when rendered *)
}.

Definition ProductCard (product : Product) : ProductCardView :=
  let isInStock := 0 <? stock_quantity product in
  let stockStatus :=
    if stock_quantity product =? 0 then Some sold_out
    else if stock_quantity product <? 10 then Some low_stock
    else None in
  {| card_href := ("/products/" ++ id product)%string;
     card_badge := or_undefined stockStatus;
     card_badge_red := stock_quantity product =? 0;
     card_emoji := getCategoryEmoji (category product);
     card_name := name product;
     card_description := or_undefined (description product);
     card_stock_line := if isInStock then Some (stock_quantity product) else None |}.

(* ===================================================================== *)
(** ** [app/products/[id]/page.tsx]                                       *)
(* ===================================================================== *)

(** The page-local [getCategoryEmoji] of the detail page. *)
Definition ProductDetailPage_getCategoryEmoji (category_arg : option string) : string :=
  match category_arg with
  | Some c =>
      if String.eqb c "shower" then "🚿"
      else if String.eqb c "bath" then "🛁"
      else if String.eqb c "sink" then "💧"
      else if String.eqb c "accessories" then "📦"
      else "🛍️"
  | None => "🛍️"
  end.

(** What the detail page shows (price formatting left out as above). *)
Record ProductDetailView : Type := mkDetail {
  detail_product : Product;
  detail_isInStock : bool;
  detail_stockStatus : option string;
  detail_categoryInfo : option Category;  (* breadcrumb and category link *)
  detail_emoji : string;
  detail_description : option string;
  detail_button_disabled : bool;
  detail_button_text : string
}.

(** The page either renders a product or leaves through [notFound()]. *)
Inductive ProductDetailResult : Type :=
| notFound
| rendered (view : ProductDetailView).

Definition ProductDetailPage (w : World) (id_ : string) : M ProductDetailResult :=
  product <- getProductById w id_ ;;
  match product with
  | None => ret notFound
  | Some product =>
      let isInStock := 0 <? stock_quantity product in
      let stockStatus :=
        if stock_quantity product =? 0 then Some sold_out
        else if stock_quantity product <? 10 then Some low_stock
        else None in
      let categoryInfo :=
        match category product with
        | Some c => if truthy_string c then getCategoryByDbValue c else None
        | None => None
        end in
      ret (rendered
             {| detail_product := product;
                detail_isInStock := isInStock;
                detail_stockStatus := stockStatus;
                detail_categoryInfo := categoryInfo;
                detail_emoji := ProductDetailPage_getCategoryEmoji (category product);
                detail_description := or_undefined (description product);
                detail_button_disabled := negb isInStock;
                detail_button_text :=
                  if isInStock then "장바구니에 담기" else sold_out |})
  end.

(* ===================================================================== *)
(** ** [app/page.tsx]                                                     *)
(* ===================================================================== *)

(** Property access [table[key]] on an object literal. *)
Fixpoint lookup {A : Type} (key : string) (table : list (string * A)) : option A :=
  match table with
  | [] => None
  | (k, v) :: rest => if String.eqb k key then Some v else lookup key rest
  end.

Definition categoryIcons : list (string * string) :=
  [("shower", "ShowerHead"); ("bath", "Bath"); ("sink", "Droplet");
   ("accessories", "Sparkles")].

(** [{ bg, icon }] per category. *)
Definition categoryColors : list (string * (string * string)) :=
  [("shower", ("bg-blue-50 dark:bg-blue-950", "text-blue-600 dark:text-blue-400"));
   ("bath", ("bg-purple-50 dark:bg-purple-950", "text-purple-600 dark:text-purple-400"));
   ("sink", ("bg-cyan-50 dark:bg-cyan-950", "text-cyan-600 dark:text-cyan-400"));
   ("accessories", ("bg-pink-50 dark:bg-pink-950", "text-pink-600 dark:text-pink-400"))].

Definition categoryDescriptions : list (string * string) :=
  [("shower", "샤워기, 샤워 헤드, 샤워 커튼");
   ("bath", "욕조, 목욕 가구, 욕조 액세서리");
   ("sink", "세면대, 수도꼭지, 거울");
   ("accessories", "수건걸이, 선반, 수납함")].

Record HomeCategory : Type := mkHomeCategory {
  home_category : Category;
  home_icon : option string;
  home_color : string;
  home_iconColor : string;
  home_description : option string;
  home_href : string
}.

(** One element of [CATEGORIES.map(...)]: reading [.bg] or [.icon] of a
    missing colour entry is a [TypeError]. *)
Definition decorate (cat : Category) : M HomeCategory :=
  match lookup (path cat) categoryColors with
  | None => throw (ErrorObj "Cannot read properties of undefined (reading 'bg')")
  | Some (bg, icon) =>
      ret {| home_category := cat;
             home_icon := lookup (path cat) categoryIcons;
             home_color := bg;
             home_iconColor := icon;
             home_description := lookup (path cat) categoryDescriptions;
             home_href := ("/products?category=" ++ path cat)%string |}
  end.

Fixpoint map_M {A B : Type} (f : A -> M B) (l : list A) : M (list B) :=
  match l with
  | [] => ret []
  | x :: rest => y <- f x ;; ys <- map_M f rest ;; ret (y :: ys)
  end.

Record HomeView : Type := mkHome {
  home_categories : list HomeCategory;
  home_featured : option (list ProductCardView)   (* [None]: the empty state *)
}.

Definition Home (w : World) : M HomeView :=
  categories <- map_M decorate CATEGORIES ;;
  featuredProducts <- getFeaturedProducts w (Some (Num 6)) ;;
  ret {| home_categories := categories;
         home_featured :=
           if 0 <? Z.of_nat (List.length featuredProducts)
           then Some (map ProductCard featuredProducts)
           else None |}.

(* ===================================================================== *)
(** ** [app/products/page.tsx]: the sort links                             *)
(* ===================================================================== *)

(** [sortOptions]: value and label. *)
Definition sortOptions : list (string * string) :=
  [("newest", "최신순"); ("price_asc", "가격 낮은 순")].

(** The query string of the link the page renders for one sort option. *)
Definition sort_link (selectedCategory : option string) (value : string)
  : URLSearchParams :=
  let params : URLSearchParams := [] in
  let params :=
    if truthy_ostring selectedCategory
    then usp_set "category" (or_string selectedCategory "") params
    else params in
  if negb (String.eqb value "newest") then usp_set "sort" value params else params.

(* ===================================================================== *)
(** ** A browsing session: the component talking to the route             *)
(* ===================================================================== *)

(** A mounted component: its state, and the render the page shows. *)
Record Mounted : Type := mkMounted {
  cells : Component;
  view : Rendered
}.

(** The request at position [i] settles with [r] (requests may settle in
    any order); the transition is over when no action is left. *)
Definition settle_at (i : nat) (c : Component) (r : FetchResult) : Component :=
  match nth_error (in_flight c) i with
  | None => c
  | Some f =>
      let rest := firstn i (in_flight c) ++ skipn (S i) (in_flight c) in
      let c' := resume c f r in
      {| products_state := products_state c'; limit_state := limit_state c';
         isPending := negb (match rest with [] => true | _ => false end);
         in_flight := rest;
         alerts := alerts c'; console_ := console_ c' |}
  end.

(** What can happen to a mounted component: a click event reaches the
    page as last rendered; the component renders again; the request at
    position [i] is answered by the route; or it fails with [r]. *)
Inductive Exchange : Type :=
| Pressed
| Rerendered
| Served (i : nat)
| Failed (i : nat) (r : FetchResult).

Definition exchange (w : World) (props : ProductListPaginationProps)
    (m : Mounted) (e : Exchange) : Mounted :=
  match e with
  | Pressed => {| cells := press props (view m) (cells m); view := view m |}
  | Rerendered => {| cells := cells m; view := render (cells m) |}
  | Served i =>
      match nth_error (in_flight (cells m)) i with
      | Some f =>
          {| cells := settle_at i (cells m) (serve w (request f)); view := view m |}
      | None => m
      end
  | Failed i r =>
      if failed r
      then {| cells := settle_at i (cells m) r; view := view m |}
      else m
  end.

Definition session (w : World) (props : ProductListPaginationProps)
    (es : list Exchange) : Mounted :=
  fold_left (exchange w props) es
    {| cells := mount props; view := render (mount props) |}.

(** The exchanges in which every click reaches a render of the current
    state: the component has rendered since the last change of its
    state ([fresh]), as it has right after mounting. *)
Fixpoint paced_from (fresh : bool) (es : list Exchange) : bool :=
  match es with
  | [] => true
  | Pressed :: es' => fresh && paced_from false es'
  | Rerendered :: es' => paced_from true es'
  | Served _ :: es' => paced_from false es'
  | Failed _ _ :: es' => paced_from false es'
  end.

Definition paced (es : list Exchange) : bool := paced_from true es.

(** The transition is pending exactly while a request is in flight. *)
Definition pending_consistent (c : Component) : Prop :=
  isPending c = negb (match in_flight c with [] => true | _ => false end).

(** A captured [limit] and list of [products] in step with the listing
    [L]: the list is a prefix of [L], and [limit] has grown by 12 per
    load from 12, so by no more than 12 per row held. *)
Definition in_step (L : list Product) (limit : Z) (products_ : list Product) : Prop :=
  (exists k, products_ = firstn k L)
  /\ 12 <= limit <= 12 * Z.of_nat (List.length products_).

(** What every state of a session satisfies. *)
Definition session_invariant (L : list Product) (props : ProductListPaginationProps)
    (m : Mounted) : Prop :=
  in_step L (limit_state (cells m)) (products_state (cells m))
  /\ in_step L (r_limit (view m)) (r_products (view m))
  /\ (forall f, In f (in_flight (cells m)) ->
                in_step L (seen_limit f) (seen_products f)
                /\ (List.length (seen_products f) < List.length L)%nat
                /\ request f = request_params props (seen_limit f) (seen_products f))
  /\ isPending (cells m)
     = negb (match in_flight (cells m) with [] => true | _ => false end).

(** The error [createClient] throws when the configuration is missing. *)
Definition missing_configuration : Exn :=
  ErrorObj "Missing Supabase environment variables. Please check NEXT_PUBLIC_SUPABASE_URL and NEXT_PUBLIC_SUPABASE_ANON_KEY.".

(** The store holding just the products table. *)
Definition products_store (rows : list Product) : Store := [("products", rows)].

(** The page of products a call hands back over [rows]. *)
Definition page_of (rows : list Product) (c : option string) (sortBy : string)
    (limit offset : Z) : list Product :=
  shown products
    (outcome (getProductsWithPagination (store_world (products_store rows)) c
                (Some sortBy) (Some (Num limit)) (Some (Num offset)) [])).

(** The rows a browsing context lists in full: the matching rows in the
    order of the sort option. *)
Definition listing (rows : list Product) (c sort : option string) : list Product :=
  sort_rows (q_order (apply_sort (or_string sort "newest") (from "products")))
    (filter (spec_page_filter c) rows).

(* ===================================================================== *)
(** ** Lists: ranges, sorting, filters                                    *)
(* ===================================================================== *)

Lemma insert_row_length ords p l :
  List.length (insert_row ords p l) = S (List.length l).
Proof.
  induction l as [|x l IH]; simpl; [reflexivity|].
  destruct (before ords p x); simpl; [reflexivity | now rewrite IH].
Qed.

Lemma sort_rows_length ords l :
  List.length (sort_rows ords l) = List.length l.
Proof.
  induction l as [|x l IH]; simpl; [reflexivity|].
  unfold sort_rows in *; simpl. now rewrite insert_row_length, IH.
Qed.

Lemma insert_row_perm ords p l : Permutation (insert_row ords p l) (p :: l).
Proof.
  induction l as [|x l IH]; simpl; [apply Permutation_refl|].
  destruct (before ords p x); [apply Permutation_refl|].
  eapply Permutation_trans; [apply perm_skip, IH | apply perm_swap].
Qed.

(** Sorting rearranges the rows and neither adds nor drops one. *)
Lemma sort_rows_perm ords l : Permutation (sort_rows ords l) l.
Proof.
  induction l as [|x l IH]; [apply Permutation_refl|].
  unfold sort_rows in *; simpl.
  eapply Permutation_trans; [apply insert_row_perm | now apply perm_skip].
Qed.

Lemma insert_row_In ords p q l :
  In q (insert_row ords p l) -> q = p \/ In q l.
Proof.
  induction l as [|x l IH]; simpl.
  - intros [H|[]]; auto.
  - destruct (before ords p x); simpl.
    + intros [H|[H|H]]; auto.
    + intros [H|H]; auto. destruct (IH H); auto.
Qed.

Lemma sort_rows_In ords q l : In q (sort_rows ords l) -> In q l.
Proof.
  induction l as [|x l IH]; simpl; [tauto|].
  unfold sort_rows in *; simpl. intros H.
  apply insert_row_In in H. destruct H; auto.
Qed.

Lemma In_firstn {A} (n : nat) (l : list A) x : In x (firstn n l) -> In x l.
Proof.
  intros H. rewrite <- (firstn_skipn n l). apply in_or_app. now left.
Qed.

Lemma In_skipn {A} (n : nat) (l : list A) x : In x (skipn n l) -> In x l.
Proof.
  intros H. rewrite <- (firstn_skipn n l). apply in_or_app. now right.
Qed.

Lemma inclusive_range_In {A} (a b : Z) (l : list A) x :
  In x (inclusive_range a b l) -> In x l.
Proof.
  unfold inclusive_range. intros H.
  apply In_firstn in H. now apply In_skipn in H.
Qed.

Lemma inclusive_range_length {A} (a b : Z) (l : list A) :
  0 <= a ->
  List.length (inclusive_range a b l)
  = Nat.min (Z.to_nat (b - a + 1)) (List.length l - Z.to_nat a).
Proof.
  intros Ha. unfold inclusive_range.
  rewrite length_firstn, length_skipn. now rewrite Z.max_r by lia.
Qed.

(** Position [k] of the range is position [a + k] of the list, as long as
    that does not pass [b]. *)
Lemma inclusive_range_nth_error {A} (a b : Z) (l : list A) (k : nat) :
  0 <= a ->
  nth_error (inclusive_range a b l) k
  = if a + Z.of_nat k <=? b then nth_error l (Z.to_nat a + k) else None.
Proof.
  intros Ha. unfold inclusive_range. rewrite Z.max_r by lia.
  destruct (a + Z.of_nat k <=? b) eqn:E.
  - apply Z.leb_le in E.
    rewrite nth_error_firstn.
    replace (k <? Z.to_nat (b - a + 1))%nat with true
      by (symmetry; apply Nat.ltb_lt; lia).
    now rewrite nth_error_skipn.
  - apply Z.leb_gt in E.
    rewrite nth_error_firstn.
    replace (k <? Z.to_nat (b - a + 1))%nat with false
      by (symmetry; apply Nat.ltb_ge; lia).
    reflexivity.
Qed.

Lemma matching_In filters rows p :
  In p (matching filters rows) ->
  In p rows /\ forall f, In f filters -> satisfies p f = true.
Proof.
  unfold matching. rewrite filter_In. intros [H1 H2]. split; [exact H1|].
  intros f Hf. rewrite forallb_forall in H2. now apply H2.
Qed.

Lemma matching_active filters rows p :
  In ("is_active", FBool true) filters ->
  In p (matching filters rows) -> is_active p = true.
Proof.
  intros Hf Hp. apply matching_In in Hp. destruct Hp as [_ Hs].
  specialize (Hs _ Hf). simpl in Hs. now destruct (is_active p).
Qed.

Lemma window_In q rows page p :
  window q rows = Some page -> In p page -> In p rows.
Proof.
  unfold window.
  destruct (q_range q) as [[[|a|sa] [|b|sb]]|]; try discriminate.
  - intros H; inversion H; subst. apply inclusive_range_In.
  - destruct (q_limit q) as [[|n|sn]|]; try discriminate;
      intros H; inversion H; subst; auto. apply In_firstn.
Qed.

(* ===================================================================== *)
(** ** The query layer on a configured world                              *)
(* ===================================================================== *)

Lemma createClient_configured w log :
  configured w -> createClient w log = (Returned tt, log).
Proof.
  intros (Hu & Hk & Hc). unfold createClient, await, throw.
  rewrite Hu, Hk. simpl. now rewrite Hc.
Qed.

Lemma store_world_configured s : configured (store_world s).
Proof. repeat split. Qed.

Lemma or_zero_of_nat n : or_zero (Some (Z.of_nat n)) = Z.of_nat n.
Proof.
  unfold or_zero. destruct (Z.of_nat n =? 0) eqn:E; [|reflexivity].
  apply Z.eqb_eq in E. now rewrite E.
Qed.

Ltac step_client H :=
  unfold bind; rewrite (createClient_configured _ _ H); unfold await.

Lemma getProducts_configured w log r :
  configured w ->
  await_rows w getProducts_query = Returned r ->
  getProducts w log =
  match error r with
  | Some e => (Thrown (ErrorObj load_error_message),
               log ++ [console_error "Error fetching products:" (error_fields e)])
  | None => (Returned (or_empty (data r)), log)
  end.
Proof.
  intros Hw Hr. unfold getProducts. step_client Hw. rewrite Hr.
  destruct (error r); reflexivity.
Qed.

Lemma getProductsByCategory_configured w c log r :
  configured w ->
  await_rows w (getProductsByCategory_query c) = Returned r ->
  getProductsByCategory w c log =
  match error r with
  | Some e => (Thrown (ErrorObj load_error_message),
               log ++ [console_error "Error fetching products by category:"
                         (error_fields e)])
  | None => (Returned (or_empty (data r)), log)
  end.
Proof.
  intros Hw Hr. unfold getProductsByCategory. step_client Hw. rewrite Hr.
  destruct (error r); reflexivity.
Qed.

Lemma getFeaturedProducts_configured w limit log r :
  configured w ->
  await_rows w (getFeaturedProducts_query (default_arg (Num 6) limit)) = Returned r ->
  outcome (getFeaturedProducts w limit log) =
  Returned match error r with
           | Some _ => []
           | None => or_empty (data r)
           end.
Proof.
  intros Hw Hr. unfold getFeaturedProducts, try_catch.
  destruct Hw as (Hu & Hk & Hc).
  rewrite Hu, Hk. cbn [negb orb].
  unfold bind. rewrite (createClient_configured _ _ (conj Hu (conj Hk Hc))).
  unfold await. rewrite Hr.
  destruct (error r) as [e|]; [|reflexivity].
  unfold console, ret. destruct (table_missing e); reflexivity.
Qed.

Lemma getProductsWithPagination_configured w c sortBy limit offset log r :
  configured w ->
  await_rows w (getProductsWithPagination_query c (default_arg "newest" sortBy)
                  (default_arg (Num 12) limit) (default_arg (Num 0) offset))
  = Returned r ->
  getProductsWithPagination w c sortBy limit offset log =
  match error r with
  | Some e => (Thrown (ErrorObj load_error_message),
               log ++ [console_error "Error fetching products with pagination:"
                         (error_fields e)])
  | None => (Returned {| products := or_empty (data r); total := or_zero (count r) |},
             log)
  end.
Proof.
  intros Hw Hr. unfold getProductsWithPagination. step_client Hw. rewrite Hr.
  destruct (error r); reflexivity.
Qed.

Lemma getProductById_configured w id_ log r :
  configured w ->
  await_single w (getProductById_query id_) = Returned r ->
  getProductById w id_ log =
  match serror r with
  | Some e =>
      if String.eqb (code e) "PGRST116" then (Returned None, log)
      else (Thrown (ErrorObj load_error_message),
            log ++ [console_error "Error fetching product by id:" (error_fields e)])
  | None => (Returned (sdata r), log)
  end.
Proof.
  intros Hw Hr. unfold getProductById. step_client Hw. rewrite Hr.
  destruct (serror r) as [e|]; [|reflexivity].
  destruct (String.eqb (code e) "PGRST116"); reflexivity.
Qed.

(** An exception raised while the query is awaited passes through
    [getProductById] unchanged. *)
Lemma getProductById_backend_exception w id_ log e :
  configured w ->
  await_single w (getProductById_query id_) = Thrown e ->
  outcome (getProductById w id_ log) = Thrown e.
Proof.
  intros Hw Hr. unfold getProductById. step_client Hw. now rewrite Hr.
Qed.

(* ===================================================================== *)
(** ** The page query against the store                                   *)
(* ===================================================================== *)

Lemma apply_sort_order sortBy q :
  exists column ascending, apply_sort sortBy q = order column ascending q.
Proof.
  unfold apply_sort.
  repeat match goal with
         | |- context [String.eqb sortBy ?s] => destruct (String.eqb sortBy s)
         end; eauto.
Qed.

Lemma apply_sort_fields sortBy q :
  q_table (apply_sort sortBy q) = q_table q /\
  q_filters (apply_sort sortBy q) = q_filters q /\
  q_count (apply_sort sortBy q) = q_count q /\
  q_range (apply_sort sortBy q) = q_range q /\
  q_limit (apply_sort sortBy q) = q_limit q.
Proof.
  destruct (apply_sort_order sortBy q) as (c & a & ->). repeat split.
Qed.

Lemma page_query_filters c sortBy limit offset :
  q_filters (getProductsWithPagination_query c sortBy limit offset)
  = ("is_active", FBool true)
    :: match or_undefined c with
       | Some c' => [("category", FText c')]
       | None => []
       end.
Proof.
  unfold getProductsWithPagination_query. cbn [range q_filters].
  destruct (apply_sort_fields sortBy
              (match c with
               | Some c0 => if truthy_string c0
                            then eq_ "category" (FText c0)
                                   (eq_ "is_active" (FBool true)
                                      (select "*" (Some "exact") (from "products")))
                            else eq_ "is_active" (FBool true)
                                   (select "*" (Some "exact") (from "products"))
               | None => eq_ "is_active" (FBool true)
                           (select "*" (Some "exact") (from "products"))
               end)) as (_ & -> & _).
  destruct c as [c|]; [|reflexivity]. simpl. destruct (truthy_string c); reflexivity.
Qed.

Lemma page_query_shape c sortBy limit offset :
  let q := getProductsWithPagination_query c sortBy limit offset in
  q_table q = "products" /\ q_count q = Some "exact" /\
  q_range q = Some (offset, nsub (nadd offset limit) (Num 1)).
Proof.
  unfold getProductsWithPagination_query. cbn [range q_table q_count q_range].
  match goal with
  | |- context [apply_sort sortBy ?q0] =>
      destruct (apply_sort_fields sortBy q0) as (-> & _ & -> & _)
  end.
  destruct c as [c|]; [destruct (truthy_string c)|]; repeat split.
Qed.

Lemma page_query_order c sortBy limit offset :
  q_order (getProductsWithPagination_query c sortBy limit offset)
  = q_order (apply_sort sortBy (from "products")).
Proof.
  unfold getProductsWithPagination_query, apply_sort.
  destruct c as [c|]; [destruct (truthy_string c)|];
    repeat match goal with
           | |- context [String.eqb sortBy ?s] => destruct (String.eqb sortBy s)
           end; reflexivity.
Qed.

(** The builder's filter list selects the rows of [spec_page_filter]. *)
Lemma matching_page_filter c sortBy limit offset rows :
  matching (q_filters (getProductsWithPagination_query c sortBy limit offset)) rows
  = filter (spec_page_filter c) rows.
Proof.
  rewrite page_query_filters. unfold matching.
  apply filter_ext. intros p. unfold spec_page_filter.
  destruct c as [c|]; simpl.
  - destruct (truthy_string c); simpl.
    + destruct (is_active p); simpl; [|reflexivity].
      destruct (category p); [|reflexivity]. now rewrite andb_true_r.
    + destruct (is_active p); reflexivity.
  - destruct (is_active p); reflexivity.
Qed.

(** What the store answers to a page request with integer bounds. *)
Lemma store_rows_page rows c sortBy (limit offset : Z) :
  store_rows [("products", rows)]
    (getProductsWithPagination_query c sortBy (Num limit) (Num offset))
  = {| data := Some (inclusive_range offset (offset + limit - 1)
                       (sort_rows (q_order (apply_sort sortBy (from "products")))
                          (filter (spec_page_filter c) rows)));
       error := None;
       count := Some (Z.of_nat (List.length (filter (spec_page_filter c) rows))) |}.
Proof.
  unfold store_rows, window.
  destruct (page_query_shape c sortBy (Num limit) (Num offset)) as (Ht & Hc & Hr).
  rewrite Ht, Hc, Hr. simpl find_table. cbv iota. simpl nsub.
  rewrite matching_page_filter, page_query_order. reflexivity.
Qed.

Lemma getProductsWithPagination_store rows c sortBy (limit offset : Z) log :
  getProductsWithPagination (store_world [("products", rows)]) c (Some sortBy)
    (Some (Num limit)) (Some (Num offset)) log
  = (Returned
       {| products := inclusive_range offset (offset + limit - 1)
                        (sort_rows (q_order (apply_sort sortBy (from "products")))
                           (filter (spec_page_filter c) rows));
          total := Z.of_nat (List.length (filter (spec_page_filter c) rows)) |},
     log).
Proof.
  rewrite (getProductsWithPagination_configured
             (store_world [("products", rows)]) c (Some sortBy)
             (Some (Num limit)) (Some (Num offset)) log
             (store_rows [("products", rows)]
                (getProductsWithPagination_query c sortBy (Num limit) (Num offset)))
             (store_world_configured _) eq_refl).
  rewrite store_rows_page. cbn [error data count]. now rewrite or_zero_of_nat.
Qed.

Lemma store_rows_active s q rows :
  In ("is_active", FBool true) (q_filters q) ->
  data (store_rows s q) = Some rows ->
  Forall (fun p => is_active p = true) rows.
Proof.
  intros Hf. unfold store_rows.
  destruct (find_table (q_table q) s) as [tbl|]; [|discriminate].
  destruct (window q (sort_rows (q_order q) (matching (q_filters q) tbl)))
    as [page|] eqn:Hw; [|discriminate].
  cbn [data]. intros H; inversion H; subst. apply Forall_forall. intros p Hp.
  eapply window_In in Hp; [|exact Hw].
  apply sort_rows_In in Hp. eapply matching_active; eauto.
Qed.

Lemma store_single_active s q p :
  In ("is_active", FBool true) (q_filters q) ->
  sdata (store_single s q) = Some p ->
  is_active p = true.
Proof.
  intros Hf. unfold store_single.
  destruct (find_table (q_table q) s) as [tbl|]; [|discriminate].
  destruct (matching (q_filters q) tbl) as [|x [|y rest]] eqn:Hm; try discriminate.
  cbn [sdata]. intros H; inversion H; subst.
  eapply matching_active; [exact Hf|]. rewrite Hm. now left.
Qed.

Lemma shown_rows_active s q (r := store_rows s q) :
  In ("is_active", FBool true) (q_filters q) ->
  Forall (fun p => is_active p = true)
    match error r with
    | Some _ => []
    | None => or_empty (data r)
    end.
Proof.
  intros Hf. destruct (error r); [constructor|].
  destruct (data r) as [rows|] eqn:Hd; [|constructor].
  eapply store_rows_active; eauto.
Qed.

(* ===================================================================== *)
(** ** Properties of the catalog query layer                              *)
(* ===================================================================== *)

(** C2.  For every call of [getProductsWithPagination]: the filter list of
    the query is [is_active = true], followed by [category = c] exactly
    when a non-empty category [c] is given; the range is
    [offset .. offset + limit - 1], both ends included, and the exact
    count is requested.  Served by the store, the call returns that range
    of the filtered and sorted rows, position [k] of the page being
    position [offset + k] of the sorted rows for [k < limit], and a total
    that counts all filtered rows, the same for every [limit] and
    [offset]. *)
Theorem fetchPage_filter_range_total (c : option string) (sortBy : string) :
  (forall limit offset,
      let q := getProductsWithPagination_query c sortBy limit offset in
      q_filters q
      = ("is_active", FBool true)
        :: match or_undefined c with
           | Some c' => [("category", FText c')]
           | None => []
           end
      /\ q_count q = Some "exact"
      /\ q_range q = Some (offset, nsub (nadd offset limit) (Num 1)))
  /\ (forall limit offset rows,
         matching (q_filters (getProductsWithPagination_query c sortBy limit offset)) rows
         = filter (spec_page_filter c) rows)
  /\ (forall rows (limit offset : Z) log,
         let hits := filter (spec_page_filter c) rows in
         let sorted := sort_rows (q_order (apply_sort sortBy (from "products"))) hits in
         getProductsWithPagination (store_world [("products", rows)]) c (Some sortBy)
           (Some (Num limit)) (Some (Num offset)) log
         = (Returned {| products := inclusive_range offset (offset + limit - 1) sorted;
                        total := Z.of_nat (List.length hits) |}, log))
  /\ (forall rows,
         exists t, forall (limit offset : Z) log,
           exists page,
             outcome (getProductsWithPagination (store_world [("products", rows)]) c
                        (Some sortBy) (Some (Num limit)) (Some (Num offset)) log)
             = Returned {| products := page; total := t |})
  /\ (forall (sorted : list Product) (limit offset : Z) (k : nat),
         0 <= offset ->
         nth_error (inclusive_range offset (offset + limit - 1) sorted) k
         = if Z.of_nat k <? limit
           then nth_error sorted (Z.to_nat offset + k)
           else None).
Proof.
  split; [|split; [|split; [|split]]].
  - intros limit offset q.
    destruct (page_query_shape c sortBy limit offset) as (_ & Hc & Hr).
    split; [apply page_query_filters | split; assumption].
  - intros. apply matching_page_filter.
  - intros. apply getProductsWithPagination_store.
  - intros rows. eexists. intros limit offset log. eexists.
    rewrite getProductsWithPagination_store. reflexivity.
  - intros sorted limit offset k Ho.
    rewrite inclusive_range_nth_error by assumption.
    destruct (Z.of_nat k <? limit) eqn:E.
    + apply Z.ltb_lt in E.
      replace (offset + Z.of_nat k <=? offset + limit - 1) with true
        by (symmetry; apply Z.leb_le; lia).
      reflexivity.
    + apply Z.ltb_ge in E.
      replace (offset + Z.of_nat k <=? offset + limit - 1) with false
        by (symmetry; apply Z.leb_gt; lia).
      reflexivity.
Qed.

Lemma fetchPage_filter_range_total_witness :
  0 <= 12 /\
  nth_error (inclusive_range 12 (12 + 12 - 1) thirty_products) 0
  = nth_error thirty_products 12.
Proof.
  split; [lia|].
  apply (proj2 (proj2 (proj2 (proj2
           (fetchPage_filter_range_total None "newest"))))
           thirty_products 12 12 0%nat).
  lia.
Defined.

(** C5.  The sort clause is a total mapping from the [sortBy] argument to
    exactly one (column, direction) pair: the five options map to
    (price, ascending), (price, descending), (created_at, descending),
    (created_at, ascending) and (name, ascending); every other value
    builds the same query as ["newest"]. *)
Theorem sort_mapping_total :
  (forall sortBy c limit offset,
      exists column ascending,
        q_order (getProductsWithPagination_query c sortBy limit offset)
        = [(column, ascending)])
  /\ (forall c limit offset,
         q_order (getProductsWithPagination_query c "price_asc" limit offset)
         = [("price", true)]
         /\ q_order (getProductsWithPagination_query c "price_desc" limit offset)
            = [("price", false)]
         /\ q_order (getProductsWithPagination_query c "newest" limit offset)
            = [("created_at", false)]
         /\ q_order (getProductsWithPagination_query c "oldest" limit offset)
            = [("created_at", true)]
         /\ q_order (getProductsWithPagination_query c "name_asc" limit offset)
            = [("name", true)])
  /\ (forall sortBy c limit offset,
         sortBy <> "price_asc" -> sortBy <> "price_desc" -> sortBy <> "newest" ->
         sortBy <> "oldest" -> sortBy <> "name_asc" ->
         getProductsWithPagination_query c sortBy limit offset
         = getProductsWithPagination_query c "newest" limit offset).
Proof.
  split; [|split].
  - intros sortBy c limit offset. rewrite page_query_order.
    destruct (apply_sort_order sortBy (from "products")) as (col & asc & ->).
    now exists col, asc.
  - intros c limit offset. rewrite !page_query_order. repeat split.
  - intros sortBy c limit offset H1 H2 H3 H4 H5.
    unfold getProductsWithPagination_query, apply_sort.
    apply String.eqb_neq in H1, H2, H3, H4, H5.
    rewrite H1, H2, H3, H4, H5. reflexivity.
Qed.

Lemma sort_mapping_total_witness :
  ("cheapest" <> "price_asc" /\ "cheapest" <> "price_desc" /\ "cheapest" <> "newest"
   /\ "cheapest" <> "oldest" /\ "cheapest" <> "name_asc")
  /\ getProductsWithPagination_query None "cheapest" (Num 12) (Num 0)
     = getProductsWithPagination_query None "newest" (Num 12) (Num 0).
Proof.
  split; [repeat split; discriminate|].
  apply (proj2 (proj2 sort_mapping_total) "cheapest" None (Num 12) (Num 0));
    discriminate.
Defined.

(** C7.  Each of the five read operations puts the predicate
    [is_active = true] into its query, and, served by the store, hands
    only active products to its caller. *)
Theorem every_read_filters_active :
  (In ("is_active", FBool true) (q_filters getProducts_query)
   /\ (forall c, In ("is_active", FBool true) (q_filters (getProductsByCategory_query c)))
   /\ (forall limit,
         In ("is_active", FBool true) (q_filters (getFeaturedProducts_query limit)))
   /\ (forall c sortBy limit offset,
         In ("is_active", FBool true)
            (q_filters (getProductsWithPagination_query c sortBy limit offset)))
   /\ (forall id_, In ("is_active", FBool true) (q_filters (getProductById_query id_))))
  /\ (forall (s : Store) log,
         Forall (fun p => is_active p = true)
           (shown (fun rows => rows) (outcome (getProducts (store_world s) log)))
         /\ (forall c,
               Forall (fun p => is_active p = true)
                 (shown (fun rows => rows)
                    (outcome (getProductsByCategory (store_world s) c log))))
         /\ (forall limit,
               Forall (fun p => is_active p = true)
                 (shown (fun rows => rows)
                    (outcome (getFeaturedProducts (store_world s) limit log))))
         /\ (forall c sortBy limit offset,
               Forall (fun p => is_active p = true)
                 (shown products
                    (outcome (getProductsWithPagination (store_world s) c sortBy
                                limit offset log))))
         /\ (forall id_,
               Forall (fun p => is_active p = true)
                 (shown option_rows (outcome (getProductById (store_world s) id_ log))))).
Proof.
  assert (Hq1 : In ("is_active", FBool true) (q_filters getProducts_query))
    by (simpl; auto).
  assert (Hq2 : forall c,
             In ("is_active", FBool true) (q_filters (getProductsByCategory_query c)))
    by (intros; simpl; auto).
  assert (Hq3 : forall limit,
             In ("is_active", FBool true) (q_filters (getFeaturedProducts_query limit)))
    by (intros; simpl; auto).
  assert (Hq4 : forall c sortBy limit offset,
             In ("is_active", FBool true)
               (q_filters (getProductsWithPagination_query c sortBy limit offset)))
    by (intros; rewrite page_query_filters; simpl; auto).
  assert (Hq5 : forall id_,
             In ("is_active", FBool true) (q_filters (getProductById_query id_)))
    by (intros; simpl; auto).
  split; [repeat split; assumption|].
  intros s log. repeat split.
  - rewrite (getProducts_configured _ log _ (store_world_configured s) eq_refl).
    pose proof (shown_rows_active s getProducts_query Hq1) as H.
    destruct (error (store_rows s getProducts_query)); exact H.
  - intros c.
    rewrite (getProductsByCategory_configured _ c log _ (store_world_configured s) eq_refl).
    pose proof (shown_rows_active s _ (Hq2 c)) as H.
    destruct (error (store_rows s (getProductsByCategory_query c))); exact H.
  - intros limit.
    rewrite (getFeaturedProducts_configured _ limit log _ (store_world_configured s) eq_refl).
    exact (shown_rows_active s _ (Hq3 _)).
  - intros c sortBy limit offset.
    rewrite (getProductsWithPagination_configured _ c sortBy limit offset log _
               (store_world_configured s) eq_refl).
    pose proof (shown_rows_active s _
                  (Hq4 c (default_arg "newest" sortBy) (default_arg (Num 12) limit)
                     (default_arg (Num 0) offset))) as H.
    destruct (error (store_rows s _)); exact H.
  - intros id_.
    rewrite (getProductById_configured _ id_ log _ (store_world_configured s) eq_refl).
    destruct (serror (store_single s (getProductById_query id_))) as [e|].
    + destruct (String.eqb (code e) "PGRST116"); constructor.
    + cbn [outcome fst shown].
      destruct (sdata (store_single s (getProductById_query id_))) as [p|] eqn:Hp;
        [|constructor].
      constructor; [|constructor].
      eapply store_single_active; [apply Hq5 | exact Hp].
Qed.

(** C3.  [getFeaturedProducts] never throws: for every world, [limit] and
    console state it returns a list, and the list is empty whenever the
    configuration is missing, the client cannot be built, the awaited
    query raises an exception, or the backend reports an error (a missing
    table included). *)
Theorem getFeaturedProducts_never_throws
    (w : World) (limit : option number) (log : list LogLine) :
  (exists rows, outcome (getFeaturedProducts w limit log) = Returned rows)
  /\ (featured_failure w limit ->
      outcome (getFeaturedProducts w limit log) = Returned []).
Proof.
  unfold featured_failure, getFeaturedProducts, try_catch, createClient.
  destruct (truthy_ostring (NEXT_PUBLIC_SUPABASE_URL w)) eqn:Hu;
    [|split; [eexists|intros _]; reflexivity].
  destruct (truthy_ostring (NEXT_PUBLIC_SUPABASE_ANON_KEY w)) eqn:Hk;
    [|split; [eexists|intros _]; reflexivity].
  cbn [negb orb]. unfold bind, await.
  destruct (createSupabaseClient w _ _) as [[]|e0] eqn:Hc;
    [|split; [eexists|intros _]; reflexivity].
  destruct (await_rows w _) as [r|e1] eqn:Hr;
    [|split; [eexists|intros _]; reflexivity].
  destruct (error r) as [e|] eqn:He.
  - unfold console, ret.
    destruct (table_missing e); (split; [eexists|intros _]; reflexivity).
  - split; [eexists; reflexivity|].
    intros [H|[H|[[e H]|[[e H]|(r' & e & H & H')]]]]; try discriminate.
    inversion H; subst. congruence.
Qed.

Lemma getFeaturedProducts_never_throws_witness :
  (featured_failure unconfigured_world None
   /\ outcome (getFeaturedProducts unconfigured_world None []) = Returned [])
  /\ (featured_failure unreachable_world (Some (Num 6))
      /\ outcome (getFeaturedProducts unreachable_world (Some (Num 6)) []) = Returned [])
  /\ (featured_failure (store_world []) None
      /\ outcome (getFeaturedProducts (store_world []) None []) = Returned []).
Proof.
  assert (H1 : featured_failure unconfigured_world None) by (left; reflexivity).
  assert (H2 : featured_failure unreachable_world (Some (Num 6)))
    by (right; right; right; left; eexists; reflexivity).
  assert (H3 : featured_failure (store_world []) None)
    by (right; right; right; right; do 2 eexists; split; reflexivity).
  split; [split; [exact H1|]|split; [split; [exact H2|]|split; [exact H3|]]].
  - apply (proj2 (getFeaturedProducts_never_throws unconfigured_world None [])), H1.
  - apply (proj2 (getFeaturedProducts_never_throws unreachable_world (Some (Num 6)) [])), H2.
  - apply (proj2 (getFeaturedProducts_never_throws (store_world []) None [])), H3.
Defined.

(** C6.  On a configured world whose backend answers the lookup with a
    response that carries a row whenever it carries no error,
    [getProductById] returns [null] exactly when the error code is the
    "no row" signal [PGRST116]; any other error object makes it throw, and
    a row is returned as it is. *)
Theorem getProductById_null_iff_no_row
    (w : World) (id_ : string) (log : list LogLine) (r : SingleResponse) :
  configured w ->
  await_single w (getProductById_query id_) = Returned r ->
  (serror r = None -> sdata r <> None) ->
  (outcome (getProductById w id_ log) = Returned None
   <-> exists e, serror r = Some e /\ code e = "PGRST116")
  /\ (forall e, serror r = Some e -> code e <> "PGRST116" ->
        outcome (getProductById w id_ log) = Thrown (ErrorObj load_error_message))
  /\ (forall p, serror r = None -> sdata r = Some p ->
        outcome (getProductById w id_ log) = Returned (Some p)).
Proof.
  intros Hw Hr Hwf. rewrite (getProductById_configured _ id_ log _ Hw Hr).
  destruct (serror r) as [e|] eqn:He.
  - destruct (String.eqb (code e) "PGRST116") eqn:Hc.
    + apply String.eqb_eq in Hc. repeat split.
      * intros _. now exists e.
      * intros e' H Hn. inversion H; subst. contradiction.
      * discriminate.
    + apply String.eqb_neq in Hc. repeat split.
      * discriminate.
      * intros (e' & H & Hc'). inversion H; subst. contradiction.
      * discriminate.
  - repeat split.
    + cbn [outcome fst]. intros H. inversion H as [H']. now apply Hwf in H'.
    + intros (e & H & _). discriminate.
    + discriminate.
    + intros p _ Hp. cbn [outcome fst]. now rewrite Hp.
Qed.

Lemma getProductById_null_iff_no_row_witness :
  configured (store_world catalog30)
  /\ await_single (store_world catalog30) (getProductById_query "p31")
     = Returned (store_single catalog30 (getProductById_query "p31"))
  /\ (serror (store_single catalog30 (getProductById_query "p31")) = None ->
      sdata (store_single catalog30 (getProductById_query "p31")) <> None)
  /\ outcome (getProductById (store_world catalog30) "p31" []) = Returned None.
Proof.
  assert (Hwf : serror (store_single catalog30 (getProductById_query "p31")) = None ->
                sdata (store_single catalog30 (getProductById_query "p31")) <> None)
    by (vm_compute; discriminate).
  split; [apply store_world_configured|].
  split; [reflexivity|].
  split; [exact Hwf|].
  apply (proj1 (getProductById_null_iff_no_row (store_world catalog30) "p31" []
                  (store_single catalog30 (getProductById_query "p31"))
                  (store_world_configured catalog30) eq_refl Hwf)).
  exists no_single_row. vm_compute. split; reflexivity.
Defined.

(** C10.  On a configured world whose backend answers without an error,
    a [null] row set becomes the empty list in [getProducts],
    [getProductsByCategory], [getFeaturedProducts] and
    [getProductsWithPagination], and a [null] count becomes [total = 0];
    in every such case a list is returned. *)
Theorem null_rows_and_count_are_coerced
    (w : World) (log : list LogLine) (r : Response) :
  configured w ->
  error r = None ->
  (await_rows w getProducts_query = Returned r ->
   outcome (getProducts w log) = Returned (or_empty (data r)))
  /\ (forall c,
        await_rows w (getProductsByCategory_query c) = Returned r ->
        outcome (getProductsByCategory w c log) = Returned (or_empty (data r)))
  /\ (forall limit,
        await_rows w (getFeaturedProducts_query (default_arg (Num 6) limit)) = Returned r ->
        outcome (getFeaturedProducts w limit log) = Returned (or_empty (data r)))
  /\ (forall c sortBy limit offset,
        await_rows w (getProductsWithPagination_query c (default_arg "newest" sortBy)
                        (default_arg (Num 12) limit) (default_arg (Num 0) offset))
        = Returned r ->
        outcome (getProductsWithPagination w c sortBy limit offset log)
        = Returned {| products := or_empty (data r); total := or_zero (count r) |})
  /\ (data r = None -> or_empty (data r) = [])
  /\ (count r = None -> or_zero (count r) = 0).
Proof.
  intros Hw He. repeat split.
  - intros Hr. rewrite (getProducts_configured _ log _ Hw Hr). now rewrite He.
  - intros c Hr. rewrite (getProductsByCategory_configured _ c log _ Hw Hr). now rewrite He.
  - intros limit Hr. rewrite (getFeaturedProducts_configured _ limit log _ Hw Hr).
    now rewrite He.
  - intros c sortBy limit offset Hr.
    rewrite (getProductsWithPagination_configured _ c sortBy limit offset log _ Hw Hr).
    now rewrite He.
  - intros ->. reflexivity.
  - intros ->. reflexivity.
Qed.

Lemma null_rows_and_count_are_coerced_witness :
  configured null_world
  /\ outcome (getProducts null_world []) = Returned []
  /\ outcome (getProductsByCategory null_world "bath" []) = Returned []
  /\ outcome (getFeaturedProducts null_world None []) = Returned []
  /\ outcome (getProductsWithPagination null_world None None None None [])
     = Returned {| products := []; total := 0 |}.
Proof.
  assert (Hw : configured null_world)
    by (split; [reflexivity | split; reflexivity]).
  pose proof (null_rows_and_count_are_coerced null_world []
                {| data := None; error := None; count := None |}
                Hw eq_refl) as (H1 & H2 & H3 & H4 & _ & _).
  split; [exact Hw|].
  split; [exact (H1 eq_refl)|].
  split; [exact (H2 "bath" eq_refl)|].
  split; [exact (H3 None eq_refl)|].
  exact (H4 None None None None eq_refl).
Defined.

(* ===================================================================== *)
(** ** [parseInt] and [String]                                            *)
(* ===================================================================== *)

Lemma leading_digits_uint (d : Decimal.uint) :
  forall acc,
    leading_digits (NilEmpty.string_of_uint d) (Some acc) = Some (uint_value d acc).
Proof.
  induction d; intros acc; cbn [NilEmpty.string_of_uint leading_digits uint_value];
    try reflexivity;
    match goal with
    | |- context [digit_value ?c] =>
        change (digit_value c) with (Some (Z.of_nat (nat_of_ascii c) - 48))
    end; cbn [default_arg]; rewrite <- IHd; reflexivity.
Qed.

Lemma uint_value_pos (d : Decimal.uint) :
  forall p, uint_value d (Z.pos p) = Z.pos (Pos.of_uint_acc d p).
Proof.
  induction d; intros p; cbn [uint_value Pos.of_uint_acc]; try reflexivity;
    match goal with
    | |- uint_value _ ?a = Z.pos (Pos.of_uint_acc _ ?q) =>
        replace a with (Z.pos q) by lia
    end; apply IHd.
Qed.

Lemma uint_value_zero (d : Decimal.uint) :
  uint_value d 0 = Z.of_N (Pos.of_uint d).
Proof.
  induction d; cbn [uint_value Pos.of_uint]; try reflexivity;
    try exact IHd;
    match goal with
    | |- uint_value _ ?a = _ =>
        let v := eval compute in a in change a with v
    end; rewrite uint_value_pos; reflexivity.
Qed.

Lemma parseInt_digits (d : Decimal.uint) :
  d <> Decimal.Nil ->
  parseInt (NilEmpty.string_of_uint d) = to_number 1 (uint_value d 0).
Proof.
  intros Hd. destruct d; try congruence;
    unfold parseInt; cbn [NilEmpty.string_of_uint];
    match goal with
    | |- context [trim_start (String ?c ?r)] =>
        change (trim_start (String c r)) with (String c r)
    end; cbn [sign_of strip_sign];
    match goal with
    | |- context [Ascii.eqb ?c "-"] =>
        change (Ascii.eqb c "-") with false; change (Ascii.eqb c "+") with false
    end; cbn [orb]; cbv iota; cbn [leading_digits];
    match goal with
    | |- context [digit_value ?c] =>
        change (digit_value c) with (Some (Z.of_nat (nat_of_ascii c) - 48))
    end; cbn [default_arg]; rewrite leading_digits_uint;
    cbn [uint_value]; reflexivity.
Qed.

Lemma parseInt_neg_digits (d : Decimal.uint) :
  d <> Decimal.Nil ->
  parseInt (String "-" (NilEmpty.string_of_uint d)) = to_number (-1) (uint_value d 0).
Proof.
  intros Hd. unfold parseInt.
  match goal with
  | |- context [trim_start (String ?c ?r)] =>
      change (trim_start (String c r)) with (String c r)
  end.
  cbn [sign_of strip_sign].
  change (Ascii.eqb "-" "-") with true. cbn [orb]. cbv iota.
  destruct d; try congruence;
    cbn [NilEmpty.string_of_uint leading_digits];
    match goal with
    | |- context [digit_value ?c] =>
        change (digit_value c) with (Some (Z.of_nat (nat_of_ascii c) - 48))
    end; cbn [default_arg]; rewrite leading_digits_uint;
    cbn [uint_value]; reflexivity.
Qed.

(** Parsing the decimal rendering of an integer gives its number value. *)
Lemma parseInt_String_rounded (z : Z) : parseInt (String_ z) = number_of_Z z.
Proof.
  destruct z as [|p|p]; [reflexivity| |];
    unfold String_; cbn [Z.to_int NilZero.string_of_int];
    unfold NilZero.string_of_uint;
    pose proof (DecimalPos.Unsigned.to_uint_nonnil p) as Hn;
    destruct (Pos.to_uint p) eqn:E; try congruence; rewrite <- E.
  all: try (rewrite parseInt_digits by (rewrite E; discriminate);
            rewrite uint_value_zero, DecimalPos.Unsigned.of_to; reflexivity).
  all: rewrite parseInt_neg_digits by (rewrite E; discriminate);
       rewrite uint_value_zero, DecimalPos.Unsigned.of_to; reflexivity.
Qed.

(** Up to 2^53 in magnitude the number value of an integer is the integer. *)
Lemma number_of_Z_safe (z : Z) : Z.abs z <= 2 ^ 53 -> number_of_Z z = Num z.
Proof.
  intros Hz. unfold number_of_Z, to_number.
  assert (Hr : round_to_double (Z.abs z) = Z.abs z).
  { unfold round_to_double. destruct (Z.abs z <? 2 ^ 53) eqn:E; [reflexivity|].
    apply Z.ltb_ge in E. replace (Z.abs z) with (2 ^ 53) by lia. reflexivity. }
  rewrite Hr.
  assert (Hb : 2 ^ 53 < 2 ^ 1024) by (apply Z.pow_lt_mono_r; lia).
  replace (2 ^ 1024 <=? Z.abs z) with false by (symmetry; apply Z.leb_gt; lia).
  f_equal. destruct (z <? 0) eqn:E; [apply Z.ltb_lt in E | apply Z.ltb_ge in E]; lia.
Qed.

(** Parsing the decimal rendering of an integer of magnitude up to 2^53
    gives the integer back. *)
Lemma parseInt_String (z : Z) : Z.abs z <= 2 ^ 53 -> parseInt (String_ z) = Num z.
Proof. intros Hz. rewrite parseInt_String_rounded. now apply number_of_Z_safe. Qed.

Lemma String_truthy (z : Z) : truthy_string (String_ z) = true.
Proof.
  destruct z as [|p|p]; [reflexivity| |reflexivity].
  unfold String_; cbn [Z.to_int NilZero.string_of_int].
  unfold NilZero.string_of_uint.
  pose proof (DecimalPos.Unsigned.to_uint_nonnil p) as Hn.
  destruct (Pos.to_uint p); try congruence; reflexivity.
Qed.

Lemma leading_digits_some (s : string) :
  forall acc, exists m, leading_digits s (Some acc) = Some m.
Proof.
  induction s as [|c s IH]; intros acc; simpl; [eauto|].
  destruct (digit_value c); [apply IH | eauto].
Qed.

(** [parseInt] yields [NaN] exactly on strings that do not start with an
    integer. *)
Lemma parseInt_NaN_iff (s : string) :
  parseInt s = NaN <-> starts_with_integer s = false.
Proof.
  unfold parseInt, starts_with_integer.
  destruct (strip_sign (trim_start s)) as [|c rest]; cbn [leading_digits]; [tauto|].
  destruct (digit_value c) as [d|].
  - destruct (leading_digits_some rest (10 * default_arg 0 None + d)) as (m & ->).
    unfold to_number. destruct (2 ^ 1024 <=? round_to_double m); split; discriminate.
  - tauto.
Qed.

(* ===================================================================== *)
(** ** Properties of [GET /api/products]                                  *)
(* ===================================================================== *)

(** C4, as stated, fails: a [limit] (or [offset]) that is present and not
    numeric is not replaced by the default; [parseInt] turns it into
    [NaN], which is passed on. *)
Lemma non_numeric_limit_is_not_defaulted :
  starts_with_integer "abc" = false
  /\ GET_limit [("limit", "abc")] = NaN
  /\ GET_limit [("limit", "abc")] <> Num 12
  /\ GET_offset [("offset", "abc")] = NaN
  /\ GET_offset [("offset", "abc")] <> Num 0.
Proof.
  split; [reflexivity|].
  split; [reflexivity|].
  split; [discriminate|].
  split; [reflexivity|discriminate].
Qed.

(** C4, amended.  [limit] and [offset] are 12 and 0 when the parameter is
    absent or empty.  A parameter that is present and non-empty is parsed
    as a base-10 integer: the result is [NaN] exactly when the value does
    not start (after white space and an optional sign) with a digit; the
    decimal rendering of an integer parses to that integer rounded to a
    double, which is the integer itself up to 2^53 in magnitude. *)
Theorem GET_limit_offset_parsing (searchParams : URLSearchParams) :
  (usp_get "limit" searchParams = None \/ usp_get "limit" searchParams = Some "" ->
   GET_limit searchParams = Num 12)
  /\ (usp_get "offset" searchParams = None \/ usp_get "offset" searchParams = Some "" ->
      GET_offset searchParams = Num 0)
  /\ (forall v, usp_get "limit" searchParams = Some v -> v <> "" ->
        GET_limit searchParams = parseInt v
        /\ (GET_limit searchParams = NaN <-> starts_with_integer v = false))
  /\ (forall v, usp_get "offset" searchParams = Some v -> v <> "" ->
        GET_offset searchParams = parseInt v
        /\ (GET_offset searchParams = NaN <-> starts_with_integer v = false))
  /\ (forall z, usp_get "limit" searchParams = Some (String_ z) ->
        GET_limit searchParams = number_of_Z z
        /\ (Z.abs z <= 2 ^ 53 -> GET_limit searchParams = Num z))
  /\ (forall z, usp_get "offset" searchParams = Some (String_ z) ->
        GET_offset searchParams = number_of_Z z
        /\ (Z.abs z <= 2 ^ 53 -> GET_offset searchParams = Num z)).
Proof.
  unfold GET_limit, GET_offset.
  split; [|split; [|split; [|split; [|split]]]].
  - intros [-> | ->]; reflexivity.
  - intros [-> | ->]; reflexivity.
  - intros v -> Hv. destruct v as [|c v]; [congruence|]. cbn [or_string truthy_string].
    split; [reflexivity | apply parseInt_NaN_iff].
  - intros v -> Hv. destruct v as [|c v]; [congruence|]. cbn [or_string truthy_string].
    split; [reflexivity | apply parseInt_NaN_iff].
  - intros z ->. cbn [or_string]. rewrite String_truthy.
    split; [apply parseInt_String_rounded | apply parseInt_String].
  - intros z ->. cbn [or_string]. rewrite String_truthy.
    split; [apply parseInt_String_rounded | apply parseInt_String].
Qed.

Lemma GET_limit_offset_parsing_witness :
  (usp_get "limit" [("sort", "newest")] = None
   /\ GET_limit [("sort", "newest")] = Num 12)
  /\ (usp_get "offset" [("offset", "")] = Some ""
      /\ GET_offset [("offset", "")] = Num 0)
  /\ (usp_get "limit" [("limit", " 24px")] = Some " 24px" /\ " 24px" <> ""
      /\ GET_limit [("limit", " 24px")] = parseInt " 24px")
  /\ (usp_get "offset" [("offset", String_ 12)] = Some (String_ 12)
      /\ Z.abs 12 <= 2 ^ 53
      /\ GET_offset [("offset", String_ 12)] = Num 12).
Proof.
  split; [split; [reflexivity|]|].
  2: split; [split; [reflexivity|]|].
  3: split; [split; [reflexivity|split; [discriminate|]]|].
  4: split; [reflexivity|split; [vm_compute; discriminate|]].
  - apply (proj1 (GET_limit_offset_parsing [("sort", "newest")])). left. reflexivity.
  - apply (proj1 (proj2 (GET_limit_offset_parsing [("offset", "")]))). right. reflexivity.
  - apply (proj1 (proj2 (proj2 (GET_limit_offset_parsing [("limit", " 24px")]))) " 24px");
      [reflexivity | discriminate].
  - apply (proj2 (proj2 (proj2 (proj2 (proj2
             (GET_limit_offset_parsing [("offset", String_ 12)]))))) 12);
      [reflexivity | vm_compute; discriminate].
Defined.

(** [parseInt] on the edges of its input: a no-break space (two bytes)
    and an ideographic space (three bytes) are skipped like a blank; an
    integer just above 2^53 is rounded to the nearest double, ties to
    even; a numeral too large for a double is an infinity; a sign alone
    or no digit is [NaN]. *)
Lemma parseInt_edges :
  parseInt " 5" = Num 5
  /\ parseInt "　	 -42abc" = Num (-42)
  /\ parseInt "9007199254740993" = Num 9007199254740992
  /\ parseInt "9007199254740995" = Num 9007199254740996
  /\ parseInt "-9007199254740993" = Num (-9007199254740992)
  /\ parseInt (String_ (10 ^ 400)) = Infinity false
  /\ parseInt (String_ (- 10 ^ 400)) = Infinity true
  /\ parseInt "+" = NaN
  /\ parseInt ".5" = NaN
  /\ parseInt "12.9" = Num 12.
Proof. vm_compute. repeat split. Qed.

(* ===================================================================== *)
(** ** The listing component                                              *)
(* ===================================================================== *)

(** What the route reads from the query string [loadMore] sends, for
    values in the range where JS integers are exact. *)
Lemma request_params_read props limit products_ :
  Z.abs (limit + 12) <= 2 ^ 53 ->
  Z.of_nat (List.length products_) <= 2 ^ 53 ->
  GET_offset (request_params props limit products_)
  = Num (Z.of_nat (List.length products_))
  /\ GET_limit (request_params props limit products_) = Num (limit + 12)
  /\ GET_category (request_params props limit products_) = or_undefined (category_ props)
  /\ GET_sortBy (request_params props limit products_)
     = or_string (Some (sortBy_ props)) "newest".
Proof.
  intros Hl Ho.
  unfold request_params, GET_offset, GET_limit, GET_category, GET_sortBy.
  destruct (category_ props) as [[|a cs]|];
    cbn [truthy_ostring truthy_string or_string or_undefined usp_set usp_get
         String.eqb Ascii.eqb Bool.eqb fst snd];
    rewrite !String_truthy, !parseInt_String by lia; repeat split.
Qed.

Lemma loadMore_params_read props c :
  Z.abs (limit_state c + 12) <= 2 ^ 53 ->
  Z.of_nat (List.length (products_state c)) <= 2 ^ 53 ->
  GET_offset (loadMore_params props c)
  = Num (Z.of_nat (List.length (products_state c)))
  /\ GET_limit (loadMore_params props c) = Num (limit_state c + 12)
  /\ GET_category (loadMore_params props c) = or_undefined (category_ props)
  /\ GET_sortBy (loadMore_params props c) = or_string (Some (sortBy_ props)) "newest".
Proof. apply request_params_read. Qed.

Lemma press_guarded props v c :
  r_isPending v = true \/ render_hasMore props v = false -> press props v c = c.
Proof.
  unfold press, button_rendered, button_disabled.
  intros [-> | ->]; [now rewrite andb_false_r | reflexivity].
Qed.

Lemma click_guarded props c :
  isPending c = true \/ hasMore props c = false -> click props c = c.
Proof. intros H. unfold click. apply press_guarded. exact H. Qed.

Lemma press_keeps_state props v c :
  products_state (press props v c) = products_state c
  /\ limit_state (press props v c) = limit_state c
  /\ alerts (press props v c) = alerts c.
Proof.
  unfold press. destruct (button_rendered props v && negb (button_disabled v));
    repeat split.
Qed.

Lemma click_keeps_state props c :
  products_state (click props c) = products_state c
  /\ limit_state (click props c) = limit_state c
  /\ alerts (click props c) = alerts c.
Proof. apply press_keeps_state. Qed.

Lemma click_idle props c :
  idle c -> hasMore props c = true -> click props c = loadMore props c /\ busy props (click props c).
Proof.
  intros [Hf Hp] Hm.
  assert (E : click props c = loadMore props c).
  { unfold click, press, button_rendered, button_disabled, render_hasMore.
    cbn [render r_products r_isPending]. unfold hasMore in Hm. now rewrite Hm, Hp. }
  split; [exact E|]. rewrite E.
  unfold busy, loadMore, loadMore_of, loadMore_params. cbn. rewrite Hf. split; reflexivity.
Qed.

Lemma settle_busy props c r :
  busy props c -> idle (settle c r).
Proof.
  intros [Hp Hf]. unfold settle. rewrite Hf. split; reflexivity.
Qed.

Lemma settle_idle c r : idle c -> settle c r = c.
Proof. intros [Hf _]. unfold settle. now rewrite Hf. Qed.

Lemma step_consistent props c e :
  idle c \/ busy props c -> idle (step props c e) \/ busy props (step props c e).
Proof.
  intros H. destruct e as [|r]; cbn [step].
  - destruct H as [Hi | Hb].
    + destruct (hasMore props c) eqn:Hm.
      * right. now apply click_idle.
      * left. rewrite click_guarded by (now right). exact Hi.
    + right. rewrite click_guarded by (left; apply Hb). exact Hb.
  - destruct H as [Hi | Hb].
    + left. now rewrite settle_idle.
    + left. eapply settle_busy; eauto.
Qed.

Lemma fold_step_consistent props events :
  forall c, idle c \/ busy props c ->
            idle (fold_left (step props) events c)
            \/ busy props (fold_left (step props) events c).
Proof.
  induction events as [|e events IH]; intros c H; cbn [fold_left]; [exact H|].
  apply IH. now apply step_consistent.
Qed.

Lemma run_consistent props events :
  idle (run props events) \/ busy props (run props events).
Proof.
  unfold run. apply fold_step_consistent. left. split; reflexivity.
Qed.

Lemma settle_failed_busy props c r :
  busy props c -> failed r = true ->
  products_state (settle c r) = products_state c
  /\ limit_state (settle c r) = limit_state c
  /\ alerts (settle c r) = alerts c ++ [retry_notice].
Proof.
  intros [Hp Hf] Hr. unfold settle. rewrite Hf.
  destruct r as [e | [|] [d | e]]; cbn in Hr; try discriminate; cbn [resume].
  - repeat split.
  - destruct (json_products d); [discriminate|]. repeat split.
  - repeat split.
  - repeat split.
  - repeat split.
Qed.

Lemma or_string_twice (s : option string) (d : string) :
  truthy_string d = true ->
  or_string (Some (or_string s d)) d = or_string s d.
Proof.
  intros Hd. destruct s as [[|a s]|]; cbn [or_string truthy_string].
  - now rewrite Hd.
  - reflexivity.
  - now rewrite Hd.
Qed.

(** The route served by the store, for integer [limit] and [offset]. *)
Lemma GET_store rows searchParams (limit offset : Z) log :
  GET_limit searchParams = Num limit ->
  GET_offset searchParams = Num offset ->
  GET (store_world [("products", rows)]) searchParams log
  = (Returned
       {| status := 200;
          body := page_body
                    (inclusive_range offset (offset + limit - 1)
                       (sort_rows
                          (q_order (apply_sort (GET_sortBy searchParams) (from "products")))
                          (filter (spec_page_filter (GET_category searchParams)) rows)))
                    (Z.of_nat (List.length
                                 (filter (spec_page_filter (GET_category searchParams))
                                    rows))) |},
     log).
Proof.
  intros Hl Ho. unfold GET, try_catch, bind. rewrite Hl, Ho.
  rewrite getProductsWithPagination_store. reflexivity.
Qed.

Lemma serve_store rows searchParams (limit offset : Z) :
  GET_limit searchParams = Num limit ->
  GET_offset searchParams = Num offset ->
  serve (store_world [("products", rows)]) searchParams
  = fetch_response true
      (Returned
         {| json_products :=
              Some (inclusive_range offset (offset + limit - 1)
                      (sort_rows
                         (q_order (apply_sort (GET_sortBy searchParams) (from "products")))
                         (filter (spec_page_filter (GET_category searchParams)) rows)));
            json_total :=
              Some (Z.of_nat (List.length
                                (filter (spec_page_filter (GET_category searchParams))
                                   rows))) |}).
Proof.
  intros Hl Ho. unfold serve. rewrite (GET_store rows searchParams limit offset [] Hl Ho).
  reflexivity.
Qed.

(** The first page of the products page, served by the store. *)
Lemma ProductsPage_store rows c sort log :
  let hits := filter (spec_page_filter c) rows in
  let sorted := sort_rows (q_order (apply_sort (or_string sort "newest")
                                      (from "products"))) hits in
  ProductsPage (store_world [("products", rows)]) c sort log
  = (Returned
       (if 0 <? Z.of_nat (List.length (inclusive_range 0 (0 + 12 - 1) sorted))
        then Some {| initialProducts := inclusive_range 0 (0 + 12 - 1) sorted;
                     total_ := Z.of_nat (List.length hits);
                     category_ := c;
                     sortBy_ := or_string sort "newest";
                     initialLimit := 12 |}
        else None),
     log).
Proof.
  intros hits sorted. unfold ProductsPage, bind.
  rewrite getProductsWithPagination_store. cbn [products total].
  fold hits. fold sorted.
  destruct (0 <? Z.of_nat (List.length (inclusive_range 0 (0 + 12 - 1) sorted)));
    reflexivity.
Qed.

(** Two consecutive ranges that together cover a list give the list. *)
Lemma ranges_cover {A} (l : list A) (n m : Z) :
  0 <= n -> Z.of_nat (List.length l) <= n + m ->
  inclusive_range 0 (0 + n - 1) l ++ inclusive_range n (n + m - 1) l = l.
Proof.
  intros Hn Hm. unfold inclusive_range.
  rewrite !Z.max_r by lia. cbn [Z.to_nat skipn].
  replace (0 + n - 1 - 0 + 1) with n by lia.
  replace (n + m - 1 - n + 1) with m by lia.
  rewrite (firstn_all2 (n := Z.to_nat m)) by (rewrite length_skipn; lia).
  apply firstn_skipn.
Qed.

(* ===================================================================== *)
(** ** Properties of the listing component                                *)
(* ===================================================================== *)

Lemma without_nth_length {A} (i : nat) (l : list A) :
  (List.length (firstn i l ++ skipn (S i) l) <= List.length l)%nat.
Proof. rewrite length_app, length_firstn, length_skipn. lia. Qed.

Lemma settle_at_consistent i c r :
  pending_consistent c ->
  pending_consistent (settle_at i c r)
  /\ (List.length (in_flight (settle_at i c r)) <= List.length (in_flight c))%nat.
Proof.
  intros H. unfold settle_at.
  destruct (nth_error (in_flight c) i) as [f|]; [|split; [exact H | lia]].
  unfold pending_consistent. cbn [isPending in_flight].
  split; [reflexivity | apply without_nth_length].
Qed.

Lemma press_consistent props v c :
  pending_consistent c -> pending_consistent (press props v c).
Proof.
  intros H. unfold press. destruct (button_rendered props v && negb (button_disabled v));
    [|exact H].
  unfold pending_consistent, loadMore_of. cbn [isPending in_flight].
  destruct (in_flight c); reflexivity.
Qed.

Lemma exchange_consistent w props m e :
  pending_consistent (cells m) -> pending_consistent (cells (exchange w props m e)).
Proof.
  intros H. destruct e as [| |i|i r]; cbn [exchange].
  - cbn [cells]. now apply press_consistent.
  - exact H.
  - destruct (nth_error (in_flight (cells m)) i); [|exact H].
    cbn [cells]. now apply settle_at_consistent.
  - destruct (failed r); [|exact H]. cbn [cells]. now apply settle_at_consistent.
Qed.

Lemma session_consistent w props es :
  pending_consistent (cells (session w props es)).
Proof.
  unfold session.
  assert (H : pending_consistent
                (cells {| cells := mount props; view := render (mount props) |}))
    by reflexivity.
  revert H. generalize {| cells := mount props; view := render (mount props) |}.
  induction es as [|e es IH]; intros m H; cbn [fold_left]; [exact H|].
  apply IH. now apply exchange_consistent.
Qed.

(** Clicks that reach a render of the current state keep at most one
    request in flight. *)
Lemma paced_one_in_flight w props es :
  forall fresh m,
    (fresh = true -> view m = render (cells m)) ->
    pending_consistent (cells m) ->
    (List.length (in_flight (cells m)) <= 1)%nat ->
    paced_from fresh es = true ->
    (List.length (in_flight (cells (fold_left (exchange w props) es m))) <= 1)%nat.
Proof.
  induction es as [|e es IH]; intros fresh m Hv Hc Hn Hp; cbn [fold_left]; [exact Hn|].
  destruct e as [| |i|i r]; cbn [paced_from] in Hp.
  - apply andb_true_iff in Hp. destruct Hp as [-> Hp].
    apply (IH false); [discriminate | now apply exchange_consistent | | exact Hp].
    cbn [exchange cells]. rewrite (Hv eq_refl).
    unfold press, button_rendered, button_disabled. cbn [render r_isPending].
    destruct (render_hasMore props _); cbn [andb]; [|exact Hn].
    destruct (isPending (cells m)) eqn:E; cbn [negb]; [exact Hn|].
    unfold pending_consistent in Hc. rewrite E in Hc.
    unfold loadMore_of. cbn [in_flight].
    destruct (in_flight (cells m)); [cbn; lia | discriminate].
  - apply (IH true); [reflexivity | exact Hc | exact Hn | exact Hp].
  - apply (IH false); [discriminate | now apply exchange_consistent | | exact Hp].
    cbn [exchange]. destruct (nth_error (in_flight (cells m)) i) as [f|]; [|exact Hn].
    cbn [cells]. destruct (settle_at_consistent i (cells m) (serve w (request f)) Hc)
      as [_ H]. lia.
  - apply (IH false); [discriminate | now apply exchange_consistent | | exact Hp].
    cbn [exchange]. destruct (failed r); [|exact Hn].
    cbn [cells]. destruct (settle_at_consistent i (cells m) r Hc) as [_ H]. lia.
Qed.

(** C8, as stated, fails.  [loadMore] has no guard of its own: called
    while a request is pending it issues a second request.  The only
    gate is the button of the last render, so two click events that
    reach the same render of the mounted component both call [loadMore]
    and two requests are in flight. *)
Lemma loadMore_is_not_guarded :
  let c0 := mount props30 in
  let c1 := loadMore props30 c0 in
  isPending c1 = true
  /\ List.length (in_flight c1) = 1%nat
  /\ loadMore props30 c1 <> c1
  /\ List.length (in_flight (loadMore props30 c1)) = 2%nat
  /\ List.length (in_flight (press props30 (render c0) (press props30 (render c0) c0)))
     = 2%nat
  /\ List.length
       (in_flight
          (cells (session (store_world (products_store thirty_products)) props30
                    [Pressed; Pressed])))
     = 2%nat.
Proof.
  split; [reflexivity|]. split; [reflexivity|].
  split; [intros H; apply (f_equal (fun c => List.length (in_flight c))) in H;
          vm_compute in H; discriminate|].
  split; [|split]; vm_compute; reflexivity.
Qed.

(** C8, amended.  The guard is the button, as the last render shows it:
    present iff that render has more to load, disabled iff that render
    has the transition pending.  A click on a render that shows the
    transition pending, or nothing more to load, changes nothing and
    issues no request.  On an idle component with more to load a click
    puts exactly one request in flight, and a second click, on the
    button rendered since, changes nothing.  In every interleaving of
    clicks, re-renders and requests settling in any order, the
    transition is pending exactly while a request is in flight, and once
    the component has rendered again with a request in flight a click
    issues nothing; in the interleavings where each click reaches a
    render of the current state at most one request is in flight. *)
Theorem at_most_one_request_in_flight (props : ProductListPaginationProps) :
  (forall v c, r_isPending v = true \/ render_hasMore props v = false ->
               press props v c = c)
  /\ (forall c, idle c -> hasMore props c = true ->
        List.length (in_flight (click props c)) = 1%nat
        /\ click props (click props c) = click props c)
  /\ (forall w es,
        (isPending (cells (session w props es)) = true
         <-> in_flight (cells (session w props es)) <> [])
        /\ (in_flight (cells (session w props es)) <> [] ->
            cells (session w props (es ++ [Rerendered; Pressed]))
            = cells (session w props es)))
  /\ (forall w es, paced es = true ->
        (List.length (in_flight (cells (session w props es))) <= 1)%nat).
Proof.
  split; [|split; [|split]].
  - apply press_guarded.
  - intros c Hi Hm. destruct (click_idle props c Hi Hm) as [_ [Hp Hf]].
    split; [now rewrite Hf|]. apply click_guarded. now left.
  - intros w es. pose proof (session_consistent w props es) as Hc.
    unfold pending_consistent in Hc.
    assert (Hiff : isPending (cells (session w props es)) = true
                   <-> in_flight (cells (session w props es)) <> []).
    { rewrite Hc. destruct (in_flight (cells (session w props es))); cbn [negb];
        split; congruence. }
    split; [exact Hiff|]. intros Hne. apply Hiff in Hne.
    unfold session in *. rewrite fold_left_app. cbn [fold_left exchange cells view].
    apply press_guarded. left. cbn [render r_isPending]. exact Hne.
  - intros w es Hp. unfold session.
    apply (paced_one_in_flight w props es true); [reflexivity | reflexivity | | exact Hp].
    cbn. lia.
Qed.

Lemma at_most_one_request_in_flight_witness :
  (idle (mount props30) /\ hasMore props30 (mount props30) = true
   /\ List.length (in_flight (click props30 (mount props30))) = 1%nat
   /\ click props30 (click props30 (mount props30)) = click props30 (mount props30))
  /\ (paced [Pressed; Rerendered; Pressed; Served 0; Rerendered; Pressed] = true
      /\ (List.length
            (in_flight
               (cells (session (store_world (products_store thirty_products)) props30
                         [Pressed; Rerendered; Pressed; Served 0; Rerendered; Pressed])))
          <= 1)%nat).
Proof.
  assert (Hi : idle (mount props30)) by (split; reflexivity).
  assert (Hm : hasMore props30 (mount props30) = true) by (vm_compute; reflexivity).
  split.
  - split; [exact Hi|]. split; [exact Hm|].
    exact (proj1 (proj2 (at_most_one_request_in_flight props30)) (mount props30) Hi Hm).
  - split; [reflexivity|].
    exact (proj2 (proj2 (proj2 (at_most_one_request_in_flight props30)))
             (store_world (products_store thirty_products))
             [Pressed; Rerendered; Pressed; Served 0; Rerendered; Pressed] eq_refl).
Defined.

(** C9.  A [loadMore] that fails (the fetch is rejected, the response is
    not ok, its body cannot be read, or it holds no products) leaves
    [products] and [limit] as they were, shows the notification, and ends
    the transition with nothing in flight; there is still more to load
    and a new click issues the same request again.  The same holds after
    any sequence of clicks and settled requests. *)
Theorem failed_loadMore_preserves_state (props : ProductListPaginationProps) :
  (forall c r,
      idle c -> hasMore props c = true -> failed r = true ->
      products_state (settle (click props c) r) = products_state c
      /\ limit_state (settle (click props c) r) = limit_state c
      /\ hasMore props (settle (click props c) r) = true
      /\ alerts (settle (click props c) r) = alerts c ++ [retry_notice]
      /\ idle (settle (click props c) r)
      /\ in_flight (click props (settle (click props c) r))
         = in_flight (click props c))
  /\ (forall events r,
        failed r = true ->
        products_state (run props (events ++ [Settle r]))
        = products_state (run props events)
        /\ limit_state (run props (events ++ [Settle r]))
           = limit_state (run props events)
        /\ idle (run props (events ++ [Settle r]))).
Proof.
  split.
  - intros c r Hi Hm Hr.
    destruct (click_idle props c Hi Hm) as [Hc Hb].
    destruct (settle_failed_busy props _ r Hb Hr) as (Hp & Hl & Ha).
    assert (Hi' : idle (settle (click props c) r)) by (eapply settle_busy; eauto).
    assert (Hpc : products_state (click props c) = products_state c)
      by (rewrite Hc; reflexivity).
    assert (Hlc : limit_state (click props c) = limit_state c)
      by (rewrite Hc; reflexivity).
    assert (Hac : alerts (click props c) = alerts c) by (rewrite Hc; reflexivity).
    assert (Hm' : hasMore props (settle (click props c) r) = true)
      by (unfold hasMore in *; rewrite Hp, Hpc; exact Hm).
    split; [congruence|]. split; [congruence|]. split; [exact Hm'|].
    split; [congruence|]. split; [exact Hi'|].
    destruct (click_idle props _ Hi' Hm') as [_ [_ ->]].
    destruct Hb as [_ ->].
    unfold loadMore_params.
    rewrite !(proj1 (click_keeps_state props _)), !(proj1 (proj2 (click_keeps_state props _))).
    rewrite !Hp, !Hl.
    rewrite !(proj1 (click_keeps_state props _)), !(proj1 (proj2 (click_keeps_state props _))).
    reflexivity.
  - intros events r Hr. unfold run. rewrite fold_left_app. cbn [fold_left step].
    fold (run props events).
    destruct (run_consistent props events) as [Hi | Hb].
    + rewrite (settle_idle _ r Hi). repeat split; apply Hi.
    + destruct (settle_failed_busy props _ r Hb Hr) as (Hp & Hl & _).
      split; [exact Hp|]. split; [exact Hl|]. eapply settle_busy; eauto.
Qed.

Lemma failed_loadMore_preserves_state_witness :
  idle (mount props30) /\ hasMore props30 (mount props30) = true
  /\ failed (fetch_response false (Thrown (ErrorObj "500"))) = true
  /\ products_state (settle (click props30 (mount props30))
                       (fetch_response false (Thrown (ErrorObj "500"))))
     = products_state (mount props30).
Proof.
  assert (Hi : idle (mount props30)) by (split; reflexivity).
  assert (Hm : hasMore props30 (mount props30) = true) by (vm_compute; reflexivity).
  split; [exact Hi|]. split; [exact Hm|]. split; [reflexivity|].
  exact (proj1 (proj1 (failed_loadMore_preserves_state props30)
                  (mount props30) (fetch_response false (Thrown (ErrorObj "500")))
                  Hi Hm eq_refl)).
Defined.

(** C1.  The component as written against the claim, on the
    thirty-product catalog.  The page mounts the component with 12
    products, total 30 and [initialLimit = 12].  The claim expects the
    first [loadMore] to ask for [offset = 12, limit = 12] and to reach 24
    items with more to load.  The code sends [limit + 12] with the state
    cell [limit = 12]: the request is [offset = 12, limit = 24], its
    success brings the list to 30 items at once, and nothing is left to
    load. *)
Lemma first_loadMore_limit_is_not_the_increment :
  let w := store_world catalog30 in
  let c1 := click props30 (mount props30) in
  let c2 := settle c1 (serve w (loadMore_params props30 (mount props30))) in
  List.length (initialProducts props30) = 12%nat
  /\ total_ props30 = 30
  /\ initialLimit props30 = 12
  /\ map request (in_flight c1)
     = [[("sort", "newest"); ("limit", "24"); ("offset", "12")]]
  /\ GET_offset (loadMore_params props30 (mount props30)) = Num 12
  /\ GET_limit (loadMore_params props30 (mount props30)) = Num 24
  /\ GET_limit (loadMore_params props30 (mount props30)) <> Num 12
  /\ List.length (products_state c2) = 30%nat
  /\ List.length (products_state c2) <> 24%nat
  /\ hasMore props30 c2 = false
  /\ limit_state c2 = 24.
Proof.
  vm_compute.
  split; [reflexivity|]. split; [reflexivity|]. split; [reflexivity|].
  split; [reflexivity|]. split; [reflexivity|]. split; [reflexivity|].
  split; [discriminate|]. split; [reflexivity|]. split; [discriminate|].
  split; reflexivity.
Qed.

(** The request of [loadMore] as the code builds it.  Every request
    carries [offset = products.length] and [limit = limit + 12], where
    [limit] is the component's state cell: it starts at [initialLimit]
    and a successful load appends the returned products and adds 12 to
    it; the category and sort are those of the props.  For any catalog
    with thirty matching rows, the page mounts the component with 12
    products, total 30 and [initialLimit = 12]; the first click issues
    [offset = 12, limit = 24], and its success yields all 30 rows in
    sorted order with [hasMore] false; a further click changes nothing
    and issues no request. *)
Theorem loadMore_request_and_growth :
  (forall props c,
      Z.abs (limit_state c + 12) <= 2 ^ 53 ->
      Z.of_nat (List.length (products_state c)) <= 2 ^ 53 ->
      GET_offset (loadMore_params props c)
      = Num (Z.of_nat (List.length (products_state c)))
      /\ GET_limit (loadMore_params props c) = Num (limit_state c + 12)
      /\ GET_category (loadMore_params props c) = or_undefined (category_ props)
      /\ GET_sortBy (loadMore_params props c)
         = or_string (Some (sortBy_ props)) "newest")
  /\ (forall props c more t,
        idle c -> hasMore props c = true ->
        let c' := settle (click props c)
                    (fetch_response true
                       (Returned {| json_products := Some more; json_total := t |})) in
        products_state c' = products_state c ++ more
        /\ limit_state c' = limit_state c + 12
        /\ idle c')
  /\ (forall rows sort,
        List.length (filter (spec_page_filter None) rows) = 30%nat ->
        let w := store_world [("products", rows)] in
        let sorted :=
          sort_rows (q_order (apply_sort (or_string sort "newest") (from "products")))
            (filter (spec_page_filter None) rows) in
        exists props,
          outcome (ProductsPage w None sort []) = Returned (Some props)
          /\ List.length (initialProducts props) = 12%nat
          /\ total_ props = 30
          /\ initialLimit props = 12
          /\ in_flight (click props (mount props))
             = [{| request := loadMore_params props (mount props);
                   seen_products := initialProducts props;
                   seen_limit := 12 |}]
          /\ GET_offset (loadMore_params props (mount props)) = Num 12
          /\ GET_limit (loadMore_params props (mount props)) = Num 24
          /\ let c2 := settle (click props (mount props))
                         (serve w (loadMore_params props (mount props))) in
             products_state c2 = sorted
             /\ List.length (products_state c2) = 30%nat
             /\ limit_state c2 = 24
             /\ hasMore props c2 = false
             /\ idle c2
             /\ click props c2 = c2).
Proof.
  split; [exact loadMore_params_read|]. split.
  - intros props c more t Hi Hm c'.
    destruct (click_idle props c Hi Hm) as [Hc [Hp Hf]].
    assert (Hi' : idle c') by (eapply settle_busy; split; eauto).
    subst c'. unfold settle in *. rewrite Hf in *. cbn [resume json_products] in *.
    cbn [products_state limit_state seen_products seen_limit].
    rewrite (proj1 (click_keeps_state props c)),
      (proj1 (proj2 (click_keeps_state props c))).
    repeat split; apply Hi'.
  - intros rows sort H30 w sorted.
    set (hits := filter (spec_page_filter None) rows) in *.
    assert (Hs : List.length sorted = 30%nat)
      by (unfold sorted; now rewrite sort_rows_length).
    set (first := inclusive_range 0 (0 + 12 - 1) sorted).
    assert (Hfirst : List.length first = 12%nat).
    { unfold first. rewrite inclusive_range_length by lia. rewrite Hs. reflexivity. }
    set (props := {| initialProducts := first;
                     total_ := Z.of_nat (List.length hits);
                     category_ := None;
                     sortBy_ := or_string sort "newest";
                     initialLimit := 12 |}).
    exists props.
    assert (Hpage : outcome (ProductsPage w None sort []) = Returned (Some props)).
    { unfold w. rewrite ProductsPage_store. fold hits. fold sorted. fold first.
      rewrite Hfirst. reflexivity. }
    assert (Htotal : total_ props = 30) by (cbn; rewrite H30; reflexivity).
    assert (Hi : idle (mount props)) by (split; reflexivity).
    assert (Hm : hasMore props (mount props) = true).
    { unfold hasMore. cbn [mount products_state props initialProducts total_].
      rewrite Hfirst, H30. reflexivity. }
    destruct (click_idle props (mount props) Hi Hm) as [Hc [Hp Hf]].
    destruct (loadMore_params_read props (mount props)) as (Ho & Hl & Hcat & Hsort);
      [cbn; lia | cbn [mount products_state props initialProducts]; rewrite Hfirst; cbn; lia |].
    cbn [mount products_state limit_state props initialProducts initialLimit] in Ho, Hl.
    rewrite Hfirst in Ho. change (Z.of_nat 12) with 12 in Ho.
    change (12 + 12) with 24 in Hl.
    assert (Hserve :
              serve w (loadMore_params props (mount props))
              = fetch_response true
                  (Returned
                     {| json_products := Some (inclusive_range 12 (12 + 24 - 1) sorted);
                        json_total := Some (Z.of_nat (List.length hits)) |})).
    { unfold w. rewrite (serve_store rows _ 24 12 Hl Ho).
      rewrite Hcat, Hsort. cbn [props category_ sortBy_ or_undefined].
      rewrite or_string_twice by reflexivity. reflexivity. }
    rewrite Hc in *. clear Hf Hp.
    assert (Hprod : products_state
                      (settle (loadMore props (mount props))
                         (serve w (loadMore_params props (mount props))))
                    = sorted).
    { rewrite Hserve. unfold settle, loadMore.
      cbn [in_flight app resume json_products products_state seen_products mount
           props initialProducts].
      unfold first. apply ranges_cover; lia. }
    assert (Hlim : limit_state
                     (settle (loadMore props (mount props))
                        (serve w (loadMore_params props (mount props))))
                   = 24).
    { rewrite Hserve. reflexivity. }
    assert (Hidle2 : idle (settle (loadMore props (mount props))
                             (serve w (loadMore_params props (mount props)))))
      by (rewrite Hserve; split; reflexivity).
    split; [exact Hpage|]. split; [exact Hfirst|]. split; [exact Htotal|].
    split; [reflexivity|]. split; [reflexivity|]. split; [exact Ho|]. split; [exact Hl|].
    cbv zeta.
    split; [exact Hprod|]. split; [rewrite Hprod; exact Hs|]. split; [exact Hlim|].
    assert (Hno : hasMore props
                    (settle (loadMore props (mount props))
                       (serve w (loadMore_params props (mount props)))) = false).
    { unfold hasMore. rewrite Hprod, Hs, Htotal. reflexivity. }
    split; [exact Hno|]. split; [exact Hidle2|].
    apply click_guarded. now right.
Qed.

Lemma loadMore_request_and_growth_on_thirty :
  List.length (filter (spec_page_filter None) thirty_products) = 30%nat
  /\ exists props,
      outcome (ProductsPage (store_world [("products", thirty_products)]) None None [])
      = Returned (Some props)
      /\ GET_offset (loadMore_params props (mount props)) = Num 12
      /\ GET_limit (loadMore_params props (mount props)) = Num 24
      /\ hasMore props
           (settle (click props (mount props))
              (serve (store_world [("products", thirty_products)])
                 (loadMore_params props (mount props)))) = false.
Proof.
  assert (H30 : List.length (filter (spec_page_filter None) thirty_products) = 30%nat)
    by (vm_compute; reflexivity).
  split; [exact H30|].
  destruct (proj2 (proj2 loadMore_request_and_growth) thirty_products None H30)
    as (props & Hpage & _ & _ & _ & _ & Ho & Hl & _ & _ & _ & Hno & _).
  exists props.
  split; [exact Hpage|]. split; [exact Ho|]. split; [exact Hl|exact Hno].
Defined.

(* ===================================================================== *)
(** ** Further properties: the route and the error policy                 *)
(* ===================================================================== *)

(** X1.  [GET /api/products] always answers: it never throws, the status
    is 200 with the products and total of [getProductsWithPagination]
    when that call returns, and 500 with the fixed message when it throws,
    whatever was thrown. *)
Theorem GET_always_responds (w : World) (searchParams : URLSearchParams)
    (log : list LogLine) :
  let call := getProductsWithPagination w (GET_category searchParams)
                (Some (GET_sortBy searchParams)) (Some (GET_limit searchParams))
                (Some (GET_offset searchParams)) log in
  (forall page, outcome call = Returned page ->
     outcome (GET w searchParams log)
     = Returned {| status := 200; body := page_body (products page) (total page) |})
  /\ (forall e, outcome call = Thrown e ->
        outcome (GET w searchParams log)
        = Returned {| status := 500; body := error_body load_error_message |})
  /\ (exists resp, outcome (GET w searchParams log) = Returned resp
                   /\ (status resp = 200 \/ status resp = 500))
  /\ (exists ok json, serve w searchParams = fetch_response ok (Returned json)).
Proof.
  intros call. subst call. unfold serve, GET, try_catch, bind.
  destruct (getProductsWithPagination w (GET_category searchParams)
              (Some (GET_sortBy searchParams)) (Some (GET_limit searchParams))
              (Some (GET_offset searchParams)) log) as [[page|e] l] eqn:E;
    cbn [outcome fst].
  - split; [intros page' H; inversion H; subst; reflexivity|].
    split; [discriminate|].
    split; [eexists; split; [reflexivity|left; reflexivity]|].
    destruct (getProductsWithPagination w (GET_category searchParams)
                (Some (GET_sortBy searchParams)) (Some (GET_limit searchParams))
                (Some (GET_offset searchParams)) []) as [[page0|e0] l0];
      cbn; eauto.
  - split; [discriminate|].
    split; [intros e' _; reflexivity|].
    split; [eexists; split; [reflexivity|right; reflexivity]|].
    destruct (getProductsWithPagination w (GET_category searchParams)
                (Some (GET_sortBy searchParams)) (Some (GET_limit searchParams))
                (Some (GET_offset searchParams)) []) as [[page0|e0] l0];
      cbn; eauto.
Qed.

Lemma GET_always_responds_witness :
  outcome (getProductsWithPagination unreachable_world (GET_category [])
             (Some (GET_sortBy [])) (Some (GET_limit [])) (Some (GET_offset [])) [])
  = Thrown (ErrorObj "fetch failed")
  /\ outcome (GET unreachable_world [] [])
     = Returned {| status := 500; body := error_body load_error_message |}.
Proof.
  split; [reflexivity|].
  apply (proj1 (proj2 (GET_always_responds unreachable_world [] []))
           (ErrorObj "fetch failed")).
  reflexivity.
Defined.

(** X2.  When the backend URL or key is missing or empty, [getProducts],
    [getProductsByCategory], [getProductsWithPagination] and
    [getProductById] throw the configuration error of [createClient]
    without writing to the console, whatever the backend would answer;
    the route turns it into the 500 response, while
    [getFeaturedProducts] returns the empty list. *)
Theorem missing_configuration_policy (w : World) (log : list LogLine) :
  truthy_ostring (NEXT_PUBLIC_SUPABASE_URL w)
  && truthy_ostring (NEXT_PUBLIC_SUPABASE_ANON_KEY w) = false ->
  getProducts w log = (Thrown missing_configuration, log)
  /\ (forall c, getProductsByCategory w c log = (Thrown missing_configuration, log))
  /\ (forall c sortBy limit offset,
        getProductsWithPagination w c sortBy limit offset log
        = (Thrown missing_configuration, log))
  /\ (forall id_, getProductById w id_ log = (Thrown missing_configuration, log))
  /\ (forall searchParams,
        outcome (GET w searchParams log)
        = Returned {| status := 500; body := error_body load_error_message |})
  /\ (forall limit, outcome (getFeaturedProducts w limit log) = Returned []).
Proof.
  intros H.
  assert (Hc : forall l, createClient w l = (Thrown missing_configuration, l)).
  { intros l. unfold createClient.
    destruct (truthy_ostring (NEXT_PUBLIC_SUPABASE_URL w));
      destruct (truthy_ostring (NEXT_PUBLIC_SUPABASE_ANON_KEY w));
      try discriminate; reflexivity. }
  assert (Hp : forall c sortBy limit offset,
             getProductsWithPagination w c sortBy limit offset log
             = (Thrown missing_configuration, log))
    by (intros; unfold getProductsWithPagination, bind; now rewrite Hc).
  split; [unfold getProducts, bind; now rewrite Hc|].
  split; [intros; unfold getProductsByCategory, bind; now rewrite Hc|].
  split; [exact Hp|].
  split; [intros; unfold getProductById, bind; now rewrite Hc|].
  split.
  - intros sp. unfold GET, try_catch, bind. now rewrite Hp.
  - intros limit. unfold getFeaturedProducts, try_catch.
    destruct (truthy_ostring (NEXT_PUBLIC_SUPABASE_URL w));
      destruct (truthy_ostring (NEXT_PUBLIC_SUPABASE_ANON_KEY w));
      try discriminate; reflexivity.
Qed.

Lemma missing_configuration_policy_witness :
  truthy_ostring (NEXT_PUBLIC_SUPABASE_URL unconfigured_world)
  && truthy_ostring (NEXT_PUBLIC_SUPABASE_ANON_KEY unconfigured_world) = false
  /\ getProducts unconfigured_world [] = (Thrown missing_configuration, []).
Proof.
  split; [reflexivity|].
  apply (proj1 (missing_configuration_policy unconfigured_world [] eq_refl)).
Defined.

(** X3.  When the backend answers a list query with an error object,
    [getProducts], [getProductsByCategory] and [getProductsWithPagination]
    log that object once and throw the same fixed message, whatever the
    backend error says; the route logs once more and answers 500 with
    that fixed message. *)
Theorem backend_error_is_reported_not_leaked
    (w : World) (log : list LogLine) (r : Response) (e : PostgrestError) :
  configured w ->
  error r = Some e ->
  (await_rows w getProducts_query = Returned r ->
   getProducts w log
   = (Thrown (ErrorObj load_error_message),
      log ++ [console_error "Error fetching products:" (error_fields e)]))
  /\ (forall c,
        await_rows w (getProductsByCategory_query c) = Returned r ->
        getProductsByCategory w c log
        = (Thrown (ErrorObj load_error_message),
           log ++ [console_error "Error fetching products by category:"
                     (error_fields e)]))
  /\ (forall c sortBy limit offset,
        await_rows w (getProductsWithPagination_query c (default_arg "newest" sortBy)
                        (default_arg (Num 12) limit) (default_arg (Num 0) offset))
        = Returned r ->
        getProductsWithPagination w c sortBy limit offset log
        = (Thrown (ErrorObj load_error_message),
           log ++ [console_error "Error fetching products with pagination:"
                     (error_fields e)]))
  /\ (forall searchParams,
        await_rows w (getProductsWithPagination_query (GET_category searchParams)
                        (GET_sortBy searchParams) (GET_limit searchParams)
                        (GET_offset searchParams))
        = Returned r ->
        GET w searchParams log
        = (Returned {| status := 500; body := error_body load_error_message |},
           (log ++ [console_error "Error fetching products with pagination:"
                      (error_fields e)])
           ++ [console_error "Error in products API route:" [load_error_message]])).
Proof.
  intros Hw He.
  split; [intros Hr; rewrite (getProducts_configured _ log _ Hw Hr); now rewrite He|].
  split; [intros c Hr; rewrite (getProductsByCategory_configured _ c log _ Hw Hr);
          now rewrite He|].
  split; [intros c sortBy limit offset Hr;
          rewrite (getProductsWithPagination_configured _ c sortBy limit offset log _ Hw Hr);
          now rewrite He|].
  intros sp Hr. unfold GET, try_catch, bind.
  rewrite (getProductsWithPagination_configured w (GET_category sp) (Some (GET_sortBy sp))
             (Some (GET_limit sp)) (Some (GET_offset sp)) log r Hw Hr).
  rewrite He. reflexivity.
Qed.

Lemma backend_error_is_reported_not_leaked_witness :
  configured (store_world [])
  /\ error (store_rows [] getProducts_query) = Some (relation_missing "products")
  /\ getProducts (store_world []) []
     = (Thrown (ErrorObj load_error_message),
        [console_error "Error fetching products:"
           (error_fields (relation_missing "products"))]).
Proof.
  split; [apply store_world_configured|]. split; [reflexivity|].
  apply (proj1 (backend_error_is_reported_not_leaked (store_world []) []
                  (store_rows [] getProducts_query) (relation_missing "products")
                  (store_world_configured []) eq_refl)).
  reflexivity.
Defined.

(* ===================================================================== *)
(** ** Further properties: pages over the store                           *)
(* ===================================================================== *)

Lemma firstn_plus {A} (a b : nat) (l : list A) :
  firstn (a + b) l = firstn a l ++ firstn b (skipn a l).
Proof.
  revert l. induction a as [|a IH]; intros l; [reflexivity|].
  destruct l as [|x l]; [cbn; now rewrite firstn_nil|].
  cbn [Nat.add firstn skipn app]. now rewrite IH.
Qed.

Lemma inclusive_range_window {A} (offset limit : Z) (l : list A) :
  0 <= offset ->
  inclusive_range offset (offset + limit - 1) l
  = firstn (Z.to_nat limit) (skipn (Z.to_nat offset) l).
Proof.
  intros Ho. unfold inclusive_range. rewrite Z.max_r by lia.
  now replace (offset + limit - 1 - offset + 1) with limit by lia.
Qed.

Lemma page_of_store rows c sortBy limit offset :
  page_of rows c sortBy limit offset
  = inclusive_range offset (offset + limit - 1) (listing rows c (Some sortBy)).
Proof.
  unfold page_of, products_store, listing.
  rewrite getProductsWithPagination_store. cbn [outcome fst shown products].
  destruct sortBy as [|a sortBy]; [|reflexivity].
  reflexivity.
Qed.

Lemma listing_In rows c sort p :
  In p (listing rows c sort) -> In p rows /\ spec_page_filter c p = true.
Proof.
  unfold listing. intros H. apply sort_rows_In in H. now apply filter_In in H.
Qed.

Lemma listing_length rows c sort :
  List.length (listing rows c sort) = List.length (filter (spec_page_filter c) rows).
Proof. unfold listing. apply sort_rows_length. Qed.

(** X4.  Served by the store, a page request with integer [limit] and
    [offset >= 0] always returns: the page holds
    [min (max 0 limit) (max 0 (total - offset))] products, so never more
    than a non-negative [limit], none when [limit <= 0] or
    [offset >= total]; every product on it passes the page filter, and
    the total is reported even for an empty page. *)
Theorem fetchPage_size_and_membership
    (rows : list Product) (c : option string) (sortBy : string)
    (limit offset : Z) (log : list LogLine) :
  0 <= offset ->
  exists page,
    outcome (getProductsWithPagination (store_world (products_store rows)) c
               (Some sortBy) (Some (Num limit)) (Some (Num offset)) log)
    = Returned page
    /\ total page = Z.of_nat (List.length (filter (spec_page_filter c) rows))
    /\ Z.of_nat (List.length (products page))
       = Z.min (Z.max 0 limit) (Z.max 0 (total page - offset))
    /\ Forall (fun p => In p rows /\ spec_page_filter c p = true) (products page).
Proof.
  intros Ho. unfold products_store.
  rewrite getProductsWithPagination_store. eexists. split; [reflexivity|].
  cbn [products total]. split; [reflexivity|]. split.
  - rewrite inclusive_range_length by assumption. rewrite sort_rows_length. lia.
  - apply Forall_forall. intros p Hp.
    apply inclusive_range_In, sort_rows_In in Hp. now apply filter_In in Hp.
Qed.

Lemma fetchPage_size_and_membership_witness :
  0 <= 24
  /\ exists page,
      outcome (getProductsWithPagination (store_world (products_store thirty_products))
                 (Some "shower") (Some "price_asc") (Some (Num 12)) (Some (Num 24)) [])
      = Returned page
      /\ Z.of_nat (List.length (products page)) = 6.
Proof.
  split; [lia|].
  destruct (fetchPage_size_and_membership thirty_products (Some "shower") "price_asc"
              12 24 [] ltac:(lia)) as (page & Hp & Ht & Hl & _).
  exists page. split; [exact Hp|]. rewrite Hl, Ht. vm_compute. reflexivity.
Defined.

(** X5.  Served by the store, consecutive pages tile the listing: the
    page at [offset] of size [n] followed by the page at [offset + n] of
    size [m] is the page at [offset] of size [n + m]; no row is skipped
    or repeated between them. *)
Theorem consecutive_pages_tile
    (rows : list Product) (c : option string) (sortBy : string) (offset n m : Z) :
  0 <= offset -> 0 <= n -> 0 <= m ->
  page_of rows c sortBy n offset ++ page_of rows c sortBy m (offset + n)
  = page_of rows c sortBy (n + m) offset.
Proof.
  intros Ho Hn Hm. rewrite !page_of_store.
  rewrite !inclusive_range_window by lia.
  replace (Z.to_nat (n + m)) with (Z.to_nat n + Z.to_nat m)%nat by lia.
  replace (Z.to_nat (offset + n)) with (Z.to_nat n + Z.to_nat offset)%nat by lia.
  rewrite firstn_plus, skipn_skipn. reflexivity.
Qed.

Lemma consecutive_pages_tile_witness :
  (0 <= 0 /\ 0 <= 12 /\ 0 <= 12)
  /\ page_of thirty_products None "newest" 12 0
     ++ page_of thirty_products None "newest" 12 (0 + 12)
     = page_of thirty_products None "newest" (12 + 12) 0.
Proof.
  split; [lia|].
  apply (consecutive_pages_tile thirty_products None "newest" 0 12 12); lia.
Defined.

(** X6.  Served by the store, [getFeaturedProducts(n)] returns the first
    [n] products of [getProducts()], in the same newest-first order; the
    default is the first six. *)
Theorem featured_is_a_prefix_of_all
    (rows : list Product) (n : Z) (log : list LogLine) :
  0 <= n ->
  shown (fun l => l)
    (outcome (getFeaturedProducts (store_world (products_store rows)) (Some (Num n)) log))
  = firstn (Z.to_nat n)
      (shown (fun l => l) (outcome (getProducts (store_world (products_store rows)) log)))
  /\ outcome (getFeaturedProducts (store_world (products_store rows)) None log)
     = outcome (getFeaturedProducts (store_world (products_store rows))
                  (Some (Num 6)) log)
  /\ outcome (getProducts (store_world (products_store rows)) log)
     = Returned (sort_rows [("created_at", false)] (filter is_active rows)).
Proof.
  intros Hn.
  assert (Hm : matching [("is_active", FBool true)] rows = filter is_active rows).
  { unfold matching. apply filter_ext. intros p. cbn.
    destruct (is_active p); reflexivity. }
  rewrite (getFeaturedProducts_configured _ (Some (Num n)) log _
             (store_world_configured _) eq_refl).
  rewrite (getProducts_configured _ log _ (store_world_configured _) eq_refl).
  unfold products_store, store_rows, window.
  cbn [q_table getProducts_query getFeaturedProducts_query default_arg from select
       eq_ order limit_ find_table String.eqb Ascii.eqb Bool.eqb q_filters q_order
       q_range q_limit q_count app error data].
  rewrite Hm. cbn [error data or_empty shown outcome fst].
  split; [reflexivity|]. split; reflexivity.
Qed.

Lemma featured_is_a_prefix_of_all_witness :
  0 <= 6
  /\ shown (fun l => l)
       (outcome (getFeaturedProducts (store_world (products_store thirty_products))
                   (Some (Num 6)) []))
     = firstn (Z.to_nat 6)
         (shown (fun l => l)
            (outcome (getProducts (store_world (products_store thirty_products)) []))).
Proof.
  split; [lia|].
  apply (proj1 (featured_is_a_prefix_of_all thirty_products 6 [] ltac:(lia))).
Defined.

(** X7.  [getProductsByCategory] and the page query treat the category
    differently at the empty string.  Served by the store,
    [getProductsByCategory(c)] returns exactly the active rows whose
    category is [c], newest first, also for [c = ""]; for a non-empty [c]
    a newest-first page from offset 0 that is large enough returns the
    same list; but [getProductsWithPagination] with the category [""]
    behaves as with no category at all and applies no category filter. *)
Theorem category_filter_and_the_empty_string (rows : list Product) :
  (forall c log,
      outcome (getProductsByCategory (store_world (products_store rows)) c log)
      = Returned
          (sort_rows [("created_at", false)]
             (filter (fun p => is_active p
                               && match category p with
                                  | Some pc => String.eqb pc c
                                  | None => false
                                  end) rows)))
  /\ (forall c limit log,
        c <> "" ->
        Z.of_nat (List.length rows) <= limit ->
        shown products
          (outcome (getProductsWithPagination (store_world (products_store rows))
                      (Some c) (Some "newest") (Some (Num limit)) (Some (Num 0)) log))
        = shown (fun l => l)
            (outcome (getProductsByCategory (store_world (products_store rows)) c log)))
  /\ (forall (w : World) sortBy limit offset log,
        getProductsWithPagination w (Some "") sortBy limit offset log
        = getProductsWithPagination w None sortBy limit offset log)
  /\ q_filters (getProductsByCategory_query "")
     = [("is_active", FBool true); ("category", FText "")].
Proof.
  assert (H1 : forall c log,
             outcome (getProductsByCategory (store_world (products_store rows)) c log)
             = Returned
                 (sort_rows [("created_at", false)]
                    (filter (fun p => is_active p
                                      && match category p with
                                         | Some pc => String.eqb pc c
                                         | None => false
                                         end) rows))).
  { intros c log.
    rewrite (getProductsByCategory_configured _ c log _
               (store_world_configured _) eq_refl).
    unfold products_store, store_rows, window.
    cbn [q_table getProductsByCategory_query from select eq_ order find_table
         String.eqb Ascii.eqb Bool.eqb q_filters q_order q_range q_limit q_count
         app error data or_empty outcome fst].
    do 2 f_equal. unfold matching. apply filter_ext. intros p. cbn.
    destruct (is_active p); cbn; [|reflexivity].
    destruct (category p); [now rewrite andb_true_r | reflexivity]. }
  split; [exact H1|]. split; [|split; reflexivity].
  intros c limit log Hc Hl. rewrite H1. unfold products_store.
  rewrite getProductsWithPagination_store.
  cbn [outcome fst shown products].
  assert (Hf : filter (spec_page_filter (Some c)) rows
               = filter (fun p => is_active p
                                  && match category p with
                                     | Some pc => String.eqb pc c
                                     | None => false
                                     end) rows).
  { apply filter_ext. intros p. unfold spec_page_filter.
    destruct c as [|a c]; [congruence|reflexivity]. }
  rewrite Hf. cbn [apply_sort String.eqb Ascii.eqb Bool.eqb order q_order from app].
  rewrite inclusive_range_window by lia. cbn [Z.to_nat skipn].
  apply firstn_all2. rewrite sort_rows_length.
  pose proof (filter_length_le
                (fun p => is_active p
                          && match category p with
                             | Some pc => String.eqb pc c
                             | None => false
                             end) rows).
  lia.
Qed.

Lemma category_filter_and_the_empty_string_witness :
  ("shower" <> "" /\ Z.of_nat (List.length thirty_products) <= 100)
  /\ shown products
       (outcome (getProductsWithPagination (store_world (products_store thirty_products))
                   (Some "shower") (Some "newest") (Some (Num 100)) (Some (Num 0)) []))
     = shown (fun l => l)
         (outcome (getProductsByCategory (store_world (products_store thirty_products))
                     "shower" [])).
Proof.
  assert (H : Z.of_nat (List.length thirty_products) <= 100) by (vm_compute; discriminate).
  split; [split; [discriminate|exact H]|].
  apply (proj1 (proj2 (category_filter_and_the_empty_string thirty_products))
           "shower" 100 []); [discriminate|exact H].
Defined.

(* ===================================================================== *)
(** ** Further properties: a browsing session                             *)
(* ===================================================================== *)

Lemma firstn_length_firstn {A} (k : nat) (l : list A) :
  firstn (List.length (firstn k l)) l = firstn k l.
Proof.
  rewrite length_firstn.
  destruct (Nat.le_ge_cases k (List.length l)) as [H|H].
  - now rewrite Nat.min_l.
  - rewrite Nat.min_r by assumption.
    now rewrite firstn_all, firstn_all2.
Qed.

Lemma spec_page_filter_or_undefined c rows :
  filter (spec_page_filter (or_undefined c)) rows = filter (spec_page_filter c) rows.
Proof.
  apply filter_ext. intros p. unfold spec_page_filter, or_undefined.
  destruct c as [[|a c]|]; reflexivity.
Qed.

(** The props the products page hands over, served by the store. *)
Lemma ProductsPage_props rows c sort log props :
  outcome (ProductsPage (store_world (products_store rows)) c sort log)
  = Returned (Some props) ->
  props = {| initialProducts := firstn 12 (listing rows c sort);
             total_ := Z.of_nat (List.length (listing rows c sort));
             category_ := c;
             sortBy_ := or_string sort "newest";
             initialLimit := 12 |}
  /\ listing rows c sort <> [].
Proof.
  unfold products_store. rewrite ProductsPage_store. cbn [outcome fst].
  fold (listing rows c sort).
  rewrite (inclusive_range_window 0 12 (listing rows c sort)) by lia.
  change (Z.to_nat 12) with 12%nat. change (Z.to_nat 0) with 0%nat. cbn [skipn].
  rewrite <- (listing_length rows c sort).
  destruct (0 <? Z.of_nat (List.length (firstn 12 (listing rows c sort)))) eqn:E;
    [|discriminate].
  intros H. inversion H. split; [reflexivity|].
  intros Hnil. rewrite Hnil in E. discriminate.
Qed.

(** What the route answers to the request built from [limit] and
    [products_] by a component mounted for [c] and [sort]. *)
Lemma serve_request rows c sort props limit products_ :
  category_ props = c ->
  sortBy_ props = or_string sort "newest" ->
  Z.abs (limit + 12) <= 2 ^ 53 ->
  Z.of_nat (List.length products_) <= 2 ^ 53 ->
  serve (store_world (products_store rows)) (request_params props limit products_)
  = fetch_response true
      (Returned
         {| json_products :=
              Some (firstn (Z.to_nat (limit + 12))
                      (skipn (List.length products_) (listing rows c sort)));
            json_total := Some (Z.of_nat (List.length (filter (spec_page_filter c) rows))) |}).
Proof.
  intros Hcat Hsort Hl Ho.
  destruct (request_params_read props limit products_ Hl Ho) as (Ho' & Hl' & Hc & Hs).
  unfold products_store. rewrite (serve_store rows _ _ _ Hl' Ho').
  rewrite Hc, Hs, Hcat, Hsort.
  rewrite or_string_twice by reflexivity.
  rewrite spec_page_filter_or_undefined.
  rewrite inclusive_range_window by lia. rewrite Nat2Z.id. reflexivity.
Qed.

Lemma In_without_nth {A} (i : nat) (l : list A) x :
  In x (firstn i l ++ skipn (S i) l) -> In x l.
Proof.
  intros H. apply in_app_or in H. destruct H as [H|H].
  - now apply In_firstn in H.
  - now apply In_skipn in H.
Qed.

Lemma resume_failed c f r :
  failed r = true ->
  products_state (resume c f r) = products_state c
  /\ limit_state (resume c f r) = limit_state c
  /\ in_flight (resume c f r) = in_flight c.
Proof.
  intros Hr. destruct r as [e | [|] j]; cbn [resume]; try (repeat split; fail).
  destruct j as [d | e] || destruct j as [e | d]; cbn [failed] in Hr.
  all: try (repeat split; fail).
  all: destruct (json_products d); [discriminate | repeat split].
Qed.

Lemma in_step_prefix L limit products_ :
  in_step L limit products_ ->
  products_ = firstn (List.length products_) L
  /\ (List.length products_ <= List.length L)%nat.
Proof.
  intros [[k Hk] _]. split.
  - rewrite Hk at 2. rewrite firstn_length_firstn. exact Hk.
  - rewrite Hk, length_firstn. lia.
Qed.

(** A response applied to what its request had captured keeps the
    list a prefix and adds at least one row. *)
Lemma in_step_served L limit products_ :
  in_step L limit products_ ->
  (List.length products_ < List.length L)%nat ->
  in_step L (limit + 12)
    (products_ ++ firstn (Z.to_nat (limit + 12)) (skipn (List.length products_) L))
  /\ products_ ++ firstn (Z.to_nat (limit + 12)) (skipn (List.length products_) L)
     = firstn (List.length products_ + Z.to_nat (limit + 12)) L.
Proof.
  intros Hs Hlt. destruct (in_step_prefix L limit products_ Hs) as [Hp _].
  destruct Hs as [_ Hl].
  assert (E : products_ ++ firstn (Z.to_nat (limit + 12))
                             (skipn (List.length products_) L)
              = firstn (List.length products_ + Z.to_nat (limit + 12)) L)
    by (rewrite Hp at 1; now rewrite firstn_plus).
  split; [|exact E]. rewrite E. split; [eexists; reflexivity|].
  rewrite length_firstn. lia.
Qed.

Section Session.

Variables (rows : list Product) (c sort : option string).
Variable props : ProductListPaginationProps.

Hypothesis Hcat : category_ props = c.
Hypothesis Hsort : sortBy_ props = or_string sort "newest".
Hypothesis Htotal : total_ props = Z.of_nat (List.length (listing rows c sort)).
Hypothesis Hsize : 12 * (Z.of_nat (List.length rows) + 1) <= 2 ^ 53.

Lemma listing_size : (List.length (listing rows c sort) <= List.length rows)%nat.
Proof. rewrite listing_length. apply filter_length_le. Qed.

Lemma exchange_invariant m e :
  session_invariant (listing rows c sort) props m ->
  session_invariant (listing rows c sort) props
    (exchange (store_world (products_store rows)) props m e).
Proof.
  intros (Hc & Hv & Hf & Hp). pose proof listing_size as HL.
  destruct e as [| |i|i r]; cbn [exchange].
  - unfold press, button_rendered, button_disabled.
    destruct (render_hasMore props (view m) && negb (r_isPending (view m))) eqn:G;
      [|exact (conj Hc (conj Hv (conj Hf Hp)))].
    apply andb_true_iff in G. destruct G as [G _].
    unfold render_hasMore in G. rewrite Htotal in G. apply Z.ltb_lt in G.
    unfold session_invariant, loadMore_of. cbn [cells view products_state limit_state
                                                  in_flight isPending].
    split; [exact Hc|]. split; [exact Hv|]. split.
    + intros f Hin. apply in_app_or in Hin. destruct Hin as [Hin | [<- | []]].
      * now apply Hf.
      * cbn [seen_limit seen_products request]. split; [exact Hv|].
        split; [lia | reflexivity].
    + destruct (in_flight (cells m)); reflexivity.
  - unfold session_invariant. cbn [cells view render r_limit r_products].
    exact (conj Hc (conj Hc (conj Hf Hp))).
  - destruct (nth_error (in_flight (cells m)) i) as [f|] eqn:E;
      [|exact (conj Hc (conj Hv (conj Hf Hp)))].
    destruct (Hf f (nth_error_In _ _ E)) as (Hs & Hlt & Hr).
    destruct (in_step_prefix (listing rows c sort) _ _ Hs) as [_ Hle]. destruct Hs as [Hk Hb].
    rewrite Hr.
    rewrite (serve_request rows c sort props (seen_limit f) (seen_products f)
               Hcat Hsort) by lia.
    unfold settle_at. rewrite E.
    cbn [resume json_products products_state limit_state in_flight isPending].
    unfold session_invariant.
    cbn [cells view products_state limit_state in_flight isPending].
    split; [apply in_step_served; [split|]; assumption|].
    split; [exact Hv|]. split; [|reflexivity].
    intros f' Hin. apply Hf. eapply In_without_nth; exact Hin.
  - destruct (failed r) eqn:Hr; [|exact (conj Hc (conj Hv (conj Hf Hp)))].
    unfold settle_at.
    destruct (nth_error (in_flight (cells m)) i) as [f|] eqn:E;
      [|exact (conj Hc (conj Hv (conj Hf Hp)))].
    destruct (resume_failed (cells m) f r Hr) as (E1 & E2 & _).
    unfold session_invariant.
    cbn [cells view products_state limit_state in_flight isPending].
    rewrite E1, E2. split; [exact Hc|]. split; [exact Hv|]. split; [|reflexivity].
    intros f' Hin. apply Hf. eapply In_without_nth; exact Hin.
Qed.

Lemma session_invariant_fold es :
  forall m, session_invariant (listing rows c sort) props m ->
            session_invariant (listing rows c sort) props
              (fold_left (exchange (store_world (products_store rows)) props) es m).
Proof.
  induction es as [|e es IH]; intros m Hm; cbn [fold_left]; [exact Hm|].
  apply IH. now apply exchange_invariant.
Qed.

(** One round from a quiet state: render, click, answer. *)
Lemma session_round m :
  session_invariant (listing rows c sort) props m ->
  in_flight (cells m) = [] ->
  hasMore props (cells m) = true ->
  let m' := exchange (store_world (products_store rows)) props
              (exchange (store_world (products_store rows)) props
                 (exchange (store_world (products_store rows)) props m Rerendered)
                 Pressed)
              (Served 0) in
  products_state (cells m')
  = firstn (List.length (products_state (cells m))
            + Z.to_nat (limit_state (cells m) + 12)) (listing rows c sort)
  /\ (List.length (products_state (cells m))
      < List.length (products_state (cells m')))%nat
  /\ limit_state (cells m') = limit_state (cells m) + 12
  /\ in_flight (cells m') = [].
Proof.
  intros (Hc & _ & _ & Hp) Hq Hm. pose proof listing_size as HL.
  rewrite Hq in Hp. cbn in Hp.
  destruct (in_step_prefix (listing rows c sort) _ _ Hc) as [_ Hle].
  assert (Hlt : (List.length (products_state (cells m))
                 < List.length (listing rows c sort))%nat).
  { unfold hasMore in Hm. rewrite Htotal in Hm. apply Z.ltb_lt in Hm. lia. }
  destruct (in_step_served (listing rows c sort) _ _ Hc Hlt) as [[_ Hb'] E].
  destruct Hc as [Hk Hb].
  cbn [exchange cells view].
  unfold press, button_rendered, button_disabled, render_hasMore.
  cbn [render r_products r_isPending r_limit].
  unfold hasMore in Hm. rewrite Hm, Hp. cbn [negb andb].
  unfold loadMore_of. cbn [in_flight cells]. rewrite Hq. cbn [app nth_error request].
  unfold render. cbn [r_limit r_products].
  rewrite (serve_request rows c sort props (limit_state (cells m))
             (products_state (cells m)) Hcat Hsort) by lia.
  unfold settle_at.
  cbn [in_flight nth_error resume json_products products_state limit_state
       seen_products seen_limit firstn skipn app cells].
  split; [exact E|]. split; [|split; reflexivity].
  rewrite E, length_firstn. lia.
Qed.

End Session.

(** X8.  A browsing session never shows a gap or a repetition, whatever
    the timing.  When the products page mounts the component over the
    store (for a catalog small enough that all counts are exact JS
    integers), then after any sequence of click events, re-renders,
    requests answered by the route in any order and failed requests,
    the products held and the products shown by the last render are
    prefixes of the full listing for the category and sort, and nothing
    more is to load exactly when the whole listing is held.  From a
    state with nothing in flight and more to load, a render, a click and
    the route's answer extend the prefix by up to [limit + 12] rows, by
    at least one. *)
Theorem session_lists_a_prefix
    (rows : list Product) (c sort : option string)
    (props : ProductListPaginationProps) (es : list Exchange) :
  let w := store_world (products_store rows) in
  outcome (ProductsPage w c sort []) = Returned (Some props) ->
  12 * (Z.of_nat (List.length rows) + 1) <= 2 ^ 53 ->
  let m := session w props es in
  products_state (cells m)
  = firstn (List.length (products_state (cells m))) (listing rows c sort)
  /\ r_products (view m)
     = firstn (List.length (r_products (view m))) (listing rows c sort)
  /\ 12 <= limit_state (cells m)
  /\ (hasMore props (cells m) = false
      <-> products_state (cells m) = listing rows c sort)
  /\ (in_flight (cells m) = [] -> hasMore props (cells m) = true ->
      let m' := exchange w props
                  (exchange w props (exchange w props m Rerendered) Pressed)
                  (Served 0) in
      products_state (cells m')
      = firstn (List.length (products_state (cells m))
                + Z.to_nat (limit_state (cells m) + 12))
          (listing rows c sort)
      /\ (List.length (products_state (cells m))
          < List.length (products_state (cells m')))%nat
      /\ limit_state (cells m') = limit_state (cells m) + 12
      /\ in_flight (cells m') = []).
Proof.
  intros w Hpage Hsize m.
  destruct (ProductsPage_props rows c sort [] props Hpage) as [Hprops Hne].
  assert (Hcat : category_ props = c) by (rewrite Hprops; reflexivity).
  assert (Hsort : sortBy_ props = or_string sort "newest") by (rewrite Hprops; reflexivity).
  assert (Htot : total_ props = Z.of_nat (List.length (listing rows c sort)))
    by (rewrite Hprops; reflexivity).
  assert (Hinit : session_invariant (listing rows c sort) props
                    {| cells := mount props; view := render (mount props) |}).
  { assert (Hs : in_step (listing rows c sort) 12 (firstn 12 (listing rows c sort))).
    { split; [now exists 12%nat|]. rewrite length_firstn.
      destruct (listing rows c sort); [congruence|]. cbn [List.length]. lia. }
    rewrite Hprops. unfold session_invariant.
    cbn [cells view mount render products_state limit_state in_flight isPending
         initialProducts initialLimit r_limit r_products].
    split; [exact Hs|]. split; [exact Hs|]. split; [intros f []|reflexivity]. }
  assert (Hinv : session_invariant (listing rows c sort) props m)
    by (apply (session_invariant_fold rows c sort props Hcat Hsort Htot Hsize es), Hinit).
  destruct Hinv as (Hc & Hv & Hf & Hp).
  destruct (in_step_prefix _ _ _ Hc) as [Hpre Hle].
  destruct (in_step_prefix _ _ _ Hv) as [Hpre' _].
  split; [exact Hpre|]. split; [exact Hpre'|]. split; [apply Hc|]. split.
  - unfold hasMore. rewrite Htot. split.
    + intros H. apply Z.ltb_ge in H. rewrite Hpre. apply firstn_all2. lia.
    + intros H. apply Z.ltb_ge. rewrite H. lia.
  - intros Hq Hm.
    apply (session_round rows c sort props Hcat Hsort Htot Hsize m);
      [exact (conj Hc (conj Hv (conj Hf Hp))) | exact Hq | exact Hm].
Qed.

Lemma session_lists_a_prefix_witness :
  outcome (ProductsPage (store_world (products_store thirty_products)) None None [])
  = Returned (Some props30)
  /\ 12 * (Z.of_nat (List.length thirty_products) + 1) <= 2 ^ 53
  /\ products_state
       (cells (session (store_world (products_store thirty_products)) props30
                 [Pressed; Pressed; Served 1; Rerendered; Pressed;
                  Failed 0 (fetch_rejected (ErrorObj "offline")); Served 0]))
     = listing thirty_products None None.
Proof.
  assert (Hpage :
            outcome (ProductsPage (store_world (products_store thirty_products))
                       None None [])
            = Returned (Some props30)) by (vm_compute; reflexivity).
  assert (Hsize : 12 * (Z.of_nat (List.length thirty_products) + 1) <= 2 ^ 53)
    by (vm_compute; discriminate).
  split; [exact Hpage|]. split; [exact Hsize|].
  destruct (session_lists_a_prefix thirty_products None None props30
              [Pressed; Pressed; Served 1; Rerendered; Pressed;
               Failed 0 (fetch_rejected (ErrorObj "offline")); Served 0]
              Hpage Hsize) as (_ & _ & _ & Hall & _).
  apply Hall. vm_compute. reflexivity.
Defined.

(* ===================================================================== *)
(** ** Further properties: categories, cards and pages                    *)
(* ===================================================================== *)

(** X9.  The two category lookups are sound and complete for the table:
    a category found by path has that path and is in [CATEGORIES]; every
    category of the table is found again by its own path and by its own
    database value; the two lookups agree on every string; and a path is
    unknown exactly when it is none of the four table paths. *)
Theorem category_lookups :
  (forall s cat, getCategoryByPath s = Some cat -> path cat = s /\ In cat CATEGORIES)
  /\ (forall s cat, getCategoryByDbValue s = Some cat ->
                    dbValue cat = s /\ In cat CATEGORIES)
  /\ (forall cat, In cat CATEGORIES ->
                  getCategoryByPath (path cat) = Some cat
                  /\ getCategoryByDbValue (dbValue cat) = Some cat)
  /\ (forall s, getCategoryByPath s = getCategoryByDbValue s)
  /\ (forall s, getCategoryByPath s = None
                <-> ~ In s ["shower"; "bath"; "sink"; "accessories"]).
Proof.
  split; [|split; [|split; [|split]]].
  - intros s cat H. apply find_some in H. destruct H as [Hin He].
    apply String.eqb_eq in He. now split.
  - intros s cat H. apply find_some in H. destruct H as [Hin He].
    apply String.eqb_eq in He. now split.
  - intros cat [H|[H|[H|[H|[]]]]]; subst cat; split; reflexivity.
  - intros s. reflexivity.
  - intros s. unfold getCategoryByPath. cbn [find CATEGORIES path In].
    destruct (String.eqb_spec "shower" s) as [E1|E1];
      [split; [discriminate | intros H; exfalso; apply H; auto]|].
    destruct (String.eqb_spec "bath" s) as [E2|E2];
      [split; [discriminate | intros H; exfalso; apply H; auto]|].
    destruct (String.eqb_spec "sink" s) as [E3|E3];
      [split; [discriminate | intros H; exfalso; apply H; auto]|].
    destruct (String.eqb_spec "accessories" s) as [E4|E4];
      [split; [discriminate | intros H; exfalso; apply H; auto 6]|].
    split; [|reflexivity]. intros _ [H|[H|[H|[H|[]]]]]; congruence.
Qed.

Lemma category_lookups_witness :
  getCategoryByPath "sink" = Some {| path := "sink"; dbValue := "sink"; label := "세면대" |}
  /\ path {| path := "sink"; dbValue := "sink"; label := "세면대" |} = "sink".
Proof.
  split; [reflexivity|].
  apply (proj1 category_lookups "sink"
           {| path := "sink"; dbValue := "sink"; label := "세면대" |}).
  reflexivity.
Defined.

(** X10.  The emoji tables of the product card and of the detail page
    are the same function, and they cover exactly the categories of
    [CATEGORIES]: a category value gets the generic emoji if and only if
    [getCategoryByDbValue] does not know it; a missing category gets the
    generic emoji. *)
Theorem emoji_tables_cover_the_categories :
  (forall c, getCategoryEmoji c = ProductDetailPage_getCategoryEmoji c)
  /\ (forall s, getCategoryEmoji (Some s) = getCategoryEmoji None
                <-> getCategoryByDbValue s = None)
  /\ (forall s s', getCategoryByDbValue s <> None -> getCategoryByDbValue s' <> None ->
                   getCategoryEmoji (Some s) = getCategoryEmoji (Some s') -> s = s').
Proof.
  split; [reflexivity|]. split.
  - intros s. unfold getCategoryEmoji, getCategoryByDbValue.
    cbn [find CATEGORIES dbValue].
    rewrite (String.eqb_sym "shower" s), (String.eqb_sym "bath" s),
      (String.eqb_sym "sink" s), (String.eqb_sym "accessories" s).
    destruct (String.eqb s "shower"); [split; discriminate|].
    destruct (String.eqb s "bath"); [split; discriminate|].
    destruct (String.eqb s "sink"); [split; discriminate|].
    destruct (String.eqb s "accessories"); [split; discriminate|].
    split; reflexivity.
  - intros s s'. unfold getCategoryEmoji, getCategoryByDbValue.
    cbn [find CATEGORIES dbValue].
    rewrite (String.eqb_sym "shower" s), (String.eqb_sym "bath" s),
      (String.eqb_sym "sink" s), (String.eqb_sym "accessories" s),
      (String.eqb_sym "shower" s'), (String.eqb_sym "bath" s'),
      (String.eqb_sym "sink" s'), (String.eqb_sym "accessories" s').
    destruct (String.eqb_spec s "shower");
      [|destruct (String.eqb_spec s "bath");
        [|destruct (String.eqb_spec s "sink");
          [|destruct (String.eqb_spec s "accessories"); [|congruence]]]];
      (destruct (String.eqb_spec s' "shower");
       [|destruct (String.eqb_spec s' "bath");
         [|destruct (String.eqb_spec s' "sink");
           [|destruct (String.eqb_spec s' "accessories"); [|congruence]]]]);
      intros _ _ H; try congruence; discriminate H.
Qed.

Lemma emoji_tables_cover_the_categories_witness :
  getCategoryByDbValue "towel" = None
  /\ getCategoryEmoji (Some "towel") = getCategoryEmoji None.
Proof.
  split; [reflexivity|].
  apply (proj2 (proj1 (proj2 emoji_tables_cover_the_categories) "towel")).
  reflexivity.
Defined.

(** The detail page on a configured world whose lookup returns [r]. *)
Lemma ProductDetailPage_configured w id_ log r :
  configured w ->
  await_single w (getProductById_query id_) = Returned r ->
  (forall e, serror r = Some e -> code e = "PGRST116" ->
             ProductDetailPage w id_ log = (Returned notFound, log))
  /\ (forall e, serror r = Some e -> code e <> "PGRST116" ->
                outcome (ProductDetailPage w id_ log)
                = Thrown (ErrorObj load_error_message))
  /\ (serror r = None -> sdata r = None ->
      ProductDetailPage w id_ log = (Returned notFound, log))
  /\ (forall p, serror r = None -> sdata r = Some p ->
        exists v,
          ProductDetailPage w id_ log = (Returned (rendered v), log)
          /\ detail_product v = p
          /\ detail_stockStatus v = card_badge (ProductCard p)
          /\ detail_emoji v = card_emoji (ProductCard p)
          /\ detail_description v = card_description (ProductCard p)
          /\ detail_isInStock v = (0 <? stock_quantity p)
          /\ detail_button_disabled v = negb (0 <? stock_quantity p)
          /\ detail_categoryInfo v
             = match or_undefined (category p) with
               | Some c => getCategoryByDbValue c
               | None => None
               end).
Proof.
  intros Hw Hr. unfold ProductDetailPage, bind.
  rewrite (getProductById_configured w id_ log r Hw Hr).
  split; [|split; [|split]].
  - intros e -> Hc. apply String.eqb_eq in Hc. now rewrite Hc.
  - intros e -> Hc. apply String.eqb_neq in Hc. now rewrite Hc.
  - intros -> ->. reflexivity.
  - intros p -> ->. eexists. split; [reflexivity|].
    cbn [detail_product detail_stockStatus detail_emoji detail_description
         detail_isInStock detail_button_disabled detail_categoryInfo
         ProductCard card_badge card_emoji card_description].
    split; [reflexivity|]. split.
    + destruct (stock_quantity p =? 0); [reflexivity|].
      destruct (stock_quantity p <? 10); reflexivity.
    + split; [reflexivity|]. split; [reflexivity|].
      split; [reflexivity|]. split; [reflexivity|].
      destruct (category p) as [[|a c]|]; reflexivity.
Qed.

(** X11.  The product card and the detail page agree on what they say
    about stock, and both follow the same four ranges of
    [stock_quantity]: 0 is "sold out" with no stock line and a disabled
    button; 1 to 9 is "low stock" with the stock line; 10 and more shows
    no badge; a negative quantity shows the "low stock" badge although no
    stock line is shown and the button is disabled. *)
Theorem stock_display
    (w : World) (id_ : string) (log : list LogLine) (r : SingleResponse) (p : Product) :
  configured w ->
  await_single w (getProductById_query id_) = Returned r ->
  serror r = None ->
  sdata r = Some p ->
  exists v,
    outcome (ProductDetailPage w id_ log) = Returned (rendered v)
    /\ detail_stockStatus v = card_badge (ProductCard p)
    /\ (detail_button_disabled v = true <-> card_stock_line (ProductCard p) = None)
    /\ (stock_quantity p = 0 ->
        card_badge (ProductCard p) = Some sold_out
        /\ card_badge_red (ProductCard p) = true
        /\ card_stock_line (ProductCard p) = None)
    /\ (0 < stock_quantity p < 10 ->
        card_badge (ProductCard p) = Some low_stock
        /\ card_badge_red (ProductCard p) = false
        /\ card_stock_line (ProductCard p) = Some (stock_quantity p))
    /\ (10 <= stock_quantity p ->
        card_badge (ProductCard p) = None
        /\ card_stock_line (ProductCard p) = Some (stock_quantity p))
    /\ (stock_quantity p < 0 ->
        card_badge (ProductCard p) = Some low_stock
        /\ card_stock_line (ProductCard p) = None
        /\ detail_button_disabled v = true
        /\ detail_button_text v = sold_out).
Proof.
  intros Hw Hr He Hd.
  destruct (ProductDetailPage_configured w id_ log r Hw Hr) as (_ & _ & _ & H).
  destruct (H p He Hd) as (v & Hv & Hp & Hs & _ & _ & _ & Hb & _).
  exists v. split; [now rewrite Hv|]. split; [exact Hs|].
  assert (Ht : detail_button_text v
               = if 0 <? stock_quantity p then "장바구니에 담기" else sold_out).
  { unfold ProductDetailPage, bind in Hv.
    rewrite (getProductById_configured w id_ log r Hw Hr), He, Hd in Hv.
    inversion Hv. reflexivity. }
  rewrite Hb, Ht. unfold ProductCard.
  cbn [card_badge card_badge_red card_stock_line].
  split.
  - destruct (0 <? stock_quantity p); split; intros; try discriminate; reflexivity.
  - split; [|split; [|split]].
    + intros ->. repeat split.
    + intros H1.
      replace (stock_quantity p =? 0) with false by (symmetry; apply Z.eqb_neq; lia).
      replace (stock_quantity p <? 10) with true by (symmetry; apply Z.ltb_lt; lia).
      replace (0 <? stock_quantity p) with true by (symmetry; apply Z.ltb_lt; lia).
      repeat split.
    + intros H1.
      replace (stock_quantity p =? 0) with false by (symmetry; apply Z.eqb_neq; lia).
      replace (stock_quantity p <? 10) with false by (symmetry; apply Z.ltb_ge; lia).
      replace (0 <? stock_quantity p) with true by (symmetry; apply Z.ltb_lt; lia).
      repeat split.
    + intros H1.
      replace (stock_quantity p =? 0) with false by (symmetry; apply Z.eqb_neq; lia).
      replace (stock_quantity p <? 10) with true by (symmetry; apply Z.ltb_lt; lia).
      replace (0 <? stock_quantity p) with false by (symmetry; apply Z.ltb_ge; lia).
      repeat split.
Qed.

Lemma stock_display_witness :
  configured (store_world catalog30)
  /\ await_single (store_world catalog30) (getProductById_query "p5")
     = Returned {| sdata := Some (sample_product 5); serror := None |}
  /\ exists v,
      outcome (ProductDetailPage (store_world catalog30) "p5" []) = Returned (rendered v)
      /\ detail_stockStatus v = card_badge (ProductCard (sample_product 5)).
Proof.
  assert (Hr : await_single (store_world catalog30) (getProductById_query "p5")
               = Returned {| sdata := Some (sample_product 5); serror := None |})
    by (vm_compute; reflexivity).
  split; [apply store_world_configured|]. split; [exact Hr|].
  destruct (stock_display (store_world catalog30) "p5" []
              {| sdata := Some (sample_product 5); serror := None |} (sample_product 5)
              (store_world_configured catalog30) Hr eq_refl eq_refl)
    as (v & Hv & Hs & _).
  exists v. split; [exact Hv | exact Hs].
Defined.

Lemma matching_by_id rows id_ :
  matching (q_filters (getProductById_query id_)) rows
  = filter (fun p => String.eqb (id p) id_ && is_active p) rows.
Proof.
  unfold matching. apply filter_ext. intros p. cbn.
  destruct (String.eqb (id p) id_); [|reflexivity].
  destruct (is_active p); reflexivity.
Qed.

(** X12.  The detail page over the store.  It leaves through
    [notFound()] when no active row has the identifier, in particular
    when every row with that identifier is inactive; when exactly one
    active row has it, the page renders that row, and the category link
    is the table entry for the row's category, if any.  A backend error
    other than the "no row" signal is thrown, not shown as "not found". *)
Theorem detail_page_not_found
    (rows : list Product) (id_ : string) (log : list LogLine) :
  let w := store_world (products_store rows) in
  let hits := filter (fun p => String.eqb (id p) id_ && is_active p) rows in
  (hits = [] -> ProductDetailPage w id_ log = (Returned notFound, log))
  /\ ((forall p, In p rows -> id p = id_ -> is_active p = false) ->
      ProductDetailPage w id_ log = (Returned notFound, log))
  /\ (forall p, hits = [p] ->
        exists v,
          ProductDetailPage w id_ log = (Returned (rendered v), log)
          /\ detail_product v = p
          /\ In p rows /\ id p = id_ /\ is_active p = true
          /\ detail_categoryInfo v
             = match category p with
               | Some c => getCategoryByDbValue c
               | None => None
               end)
  /\ (forall (w' : World) r e,
        configured w' ->
        await_single w' (getProductById_query id_) = Returned r ->
        serror r = Some e -> code e <> "PGRST116" ->
        outcome (ProductDetailPage w' id_ log) = Thrown (ErrorObj load_error_message)).
Proof.
  intros w hits.
  assert (Hs : store_single (products_store rows) (getProductById_query id_)
               = match hits with
                 | [p] => {| sdata := Some p; serror := None |}
                 | _ => {| sdata := None; serror := Some no_single_row |}
                 end).
  { unfold store_single, products_store.
    cbn [q_table getProductById_query single eq_ select from find_table
         String.eqb Ascii.eqb Bool.eqb].
    change (q_filters _) with (q_filters (getProductById_query id_)).
    rewrite matching_by_id. reflexivity. }
  pose proof (ProductDetailPage_configured w id_ log
                (store_single (products_store rows) (getProductById_query id_))
                (store_world_configured _) eq_refl) as (Hnf & _ & _ & Hok).
  assert (Hempty : hits = [] -> ProductDetailPage w id_ log = (Returned notFound, log)).
  { intros E. rewrite E in Hs. apply (Hnf no_single_row); [now rewrite Hs | reflexivity]. }
  split; [exact Hempty|]. split; [|split].
  - intros Hin. apply Hempty. unfold hits.
    destruct (filter _ rows) as [|p l] eqn:E; [reflexivity|].
    assert (Hp : In p (filter (fun p => String.eqb (id p) id_ && is_active p) rows))
      by (rewrite E; now left).
    apply filter_In in Hp. destruct Hp as [Hp1 Hp2].
    apply andb_true_iff in Hp2. destruct Hp2 as [Hid Ha].
    apply String.eqb_eq in Hid. rewrite (Hin p Hp1 Hid) in Ha. discriminate.
  - intros p E. rewrite E in Hs.
    destruct (Hok p) as (v & Hv & Hp & _ & _ & _ & _ & _ & Hc);
      [now rewrite Hs | now rewrite Hs |].
    exists v. split; [exact Hv|]. split; [exact Hp|].
    assert (Hin : In p hits) by (rewrite E; now left).
    unfold hits in Hin. apply filter_In in Hin. destruct Hin as [Hin Hb].
    apply andb_true_iff in Hb. destruct Hb as [Hid Ha].
    apply String.eqb_eq in Hid.
    split; [exact Hin|]. split; [exact Hid|]. split; [exact Ha|].
    rewrite Hc. destruct (category p) as [[|a c]|]; reflexivity.
  - intros w' r e Hw Hr He Hc.
    exact (proj1 (proj2 (ProductDetailPage_configured w' id_ log r Hw Hr)) e He Hc).
Qed.

Lemma detail_page_not_found_witness :
  filter (fun p => String.eqb (id p) "p31" && is_active p) thirty_products = []
  /\ ProductDetailPage (store_world (products_store thirty_products)) "p31" []
     = (Returned notFound, []).
Proof.
  assert (H : filter (fun p => String.eqb (id p) "p31" && is_active p) thirty_products
              = []) by (vm_compute; reflexivity).
  split; [exact H|].
  apply (proj1 (detail_page_not_found thirty_products "p31" [])). exact H.
Defined.

(** X13.  Following a sort link of the products page arrives where it
    says.  For a non-empty sort value, the page that reads the link's
    query string resolves the same sort (the link for ["newest"] carries
    no [sort] parameter and the page defaults to it), sees the selected
    category when it is non-empty and none otherwise, and so renders the
    same first page and sends the same query as for the selected category
    and that sort. *)
Theorem sort_link_round_trip (selectedCategory : option string) (value : string) :
  truthy_string value = true ->
  let link := sort_link selectedCategory value in
  or_string (usp_get "sort" link) "newest" = value
  /\ usp_get "category" link = or_undefined selectedCategory
  /\ (usp_get "sort" link = None <-> value = "newest")
  /\ (forall w log,
        outcome (ProductsPage w (usp_get "category" link) (usp_get "sort" link) log)
        = outcome (ProductsPage w (or_undefined selectedCategory) (Some value) log))
  /\ (forall limit offset,
        getProductsWithPagination_query (usp_get "category" link)
          (or_string (usp_get "sort" link) "newest") limit offset
        = getProductsWithPagination_query selectedCategory value limit offset).
Proof.
  intros Hv link.
  assert (Hs : or_string (usp_get "sort" link) "newest" = value
               /\ (usp_get "sort" link = None <-> value = "newest")).
  { subst link. unfold sort_link.
    destruct (String.eqb_spec value "newest") as [E|E]; cbn [negb].
    - destruct selectedCategory as [[|a c]|]; cbn; (split; [now rewrite E | tauto]).
    - destruct selectedCategory as [[|a c]|]; cbn;
        (destruct value as [|b v]; [discriminate|]);
        (split; [reflexivity | split; [discriminate | contradiction]]). }
  assert (Hc : usp_get "category" link = or_undefined selectedCategory).
  { subst link. unfold sort_link.
    destruct (negb (String.eqb value "newest"));
      destruct selectedCategory as [[|a c]|]; reflexivity. }
  destruct Hs as [Hs Hn].
  split; [exact Hs|]. split; [exact Hc|]. split; [exact Hn|]. split.
  - intros w log. unfold ProductsPage. rewrite Hc, Hs.
    cbn [or_string]. now rewrite Hv.
  - intros limit offset. rewrite Hc, Hs.
    destruct selectedCategory as [[|a c]|]; reflexivity.
Qed.

Lemma sort_link_round_trip_witness :
  truthy_string "price_asc" = true
  /\ or_string (usp_get "sort" (sort_link (Some "bath") "price_asc")) "newest"
     = "price_asc".
Proof.
  split; [reflexivity|].
  apply (proj1 (sort_link_round_trip (Some "bath") "price_asc" eq_refl)).
Defined.

Lemma getFeaturedProducts_returns w limit log :
  exists rows l,
    getFeaturedProducts w limit log = (Returned rows, l)
    /\ (featured_failure w limit -> rows = []).
Proof.
  unfold featured_failure, getFeaturedProducts, try_catch, createClient.
  destruct (truthy_ostring (NEXT_PUBLIC_SUPABASE_URL w)) eqn:Hu;
    [|do 2 eexists; split; [reflexivity | intros _; reflexivity]].
  destruct (truthy_ostring (NEXT_PUBLIC_SUPABASE_ANON_KEY w)) eqn:Hk;
    [|do 2 eexists; split; [reflexivity | intros _; reflexivity]].
  cbn [negb orb]. unfold bind, await.
  destruct (createSupabaseClient w _ _) as [[]|e0] eqn:Hc;
    [|do 2 eexists; split; [reflexivity | intros _; reflexivity]].
  destruct (await_rows w _) as [r|e1] eqn:Hr;
    [|do 2 eexists; split; [reflexivity | intros _; reflexivity]].
  destruct (error r) as [e|] eqn:He.
  - unfold console, ret.
    destruct (table_missing e);
      (do 2 eexists; split; [reflexivity | intros _; reflexivity]).
  - do 2 eexists. split; [reflexivity|].
    intros [H|[H|[[e H]|[[e H]|(r' & e & H & H')]]]]; try discriminate.
    inversion H; subst. congruence.
Qed.

(** X14.  The home page renders in every world.  Decorating the
    category table never fails (each table path has a colour, an icon
    and a description entry), the four cards link to
    [/products?category=<path>], and the featured section shows product
    cards when [getFeaturedProducts(6)] returns some and the empty state
    otherwise, in particular whenever the backend is misconfigured,
    unreachable or reports an error. *)
Theorem Home_always_renders (w : World) (log : list LogLine) :
  exists view,
    outcome (Home w log) = Returned view
    /\ map home_category (home_categories view) = CATEGORIES
    /\ Forall (fun hc => home_icon hc <> None
                         /\ home_description hc <> None
                         /\ home_href hc
                            = ("/products?category=" ++ path (home_category hc))%string)
         (home_categories view)
    /\ (featured_failure w (Some (Num 6)) -> home_featured view = None)
    /\ (forall cards, home_featured view = Some cards ->
          cards <> []
          /\ exists rows,
              outcome (getFeaturedProducts w (Some (Num 6)) log) = Returned rows
              /\ cards = map ProductCard rows).
Proof.
  destruct (getFeaturedProducts_returns w (Some (Num 6)) log) as (rows & l & Hf & Hfail).
  unfold Home, bind.
  change (map_M decorate CATEGORIES log)
    with (Returned
            [ {| home_category := {| path := "shower"; dbValue := "shower";
                                     label := "샤워용품" |};
                 home_icon := Some "ShowerHead";
                 home_color := "bg-blue-50 dark:bg-blue-950";
                 home_iconColor := "text-blue-600 dark:text-blue-400";
                 home_description := Some "샤워기, 샤워 헤드, 샤워 커튼";
                 home_href := "/products?category=shower" |};
              {| home_category := {| path := "bath"; dbValue := "bath";
                                     label := "욕조용품" |};
                 home_icon := Some "Bath";
                 home_color := "bg-purple-50 dark:bg-purple-950";
                 home_iconColor := "text-purple-600 dark:text-purple-400";
                 home_description := Some "욕조, 목욕 가구, 욕조 액세서리";
                 home_href := "/products?category=bath" |};
              {| home_category := {| path := "sink"; dbValue := "sink";
                                     label := "세면대" |};
                 home_icon := Some "Droplet";
                 home_color := "bg-cyan-50 dark:bg-cyan-950";
                 home_iconColor := "text-cyan-600 dark:text-cyan-400";
                 home_description := Some "세면대, 수도꼭지, 거울";
                 home_href := "/products?category=sink" |};
              {| home_category := {| path := "accessories"; dbValue := "accessories";
                                     label := "액세서리" |};
                 home_icon := Some "Sparkles";
                 home_color := "bg-pink-50 dark:bg-pink-950";
                 home_iconColor := "text-pink-600 dark:text-pink-400";
                 home_description := Some "수건걸이, 선반, 수납함";
                 home_href := "/products?category=accessories" |} ],
          log).
  cbv beta iota. rewrite Hf. eexists. split; [reflexivity|].
  cbn [home_categories home_featured].
  split; [reflexivity|]. split.
  - repeat constructor; discriminate.
  - split.
    + intros H. rewrite (Hfail H). reflexivity.
    + intros cards Hc. destruct rows as [|x rows]; [discriminate|].
      destruct (0 <? Z.of_nat (List.length (x :: rows))); [|discriminate].
      inversion Hc. split; [discriminate|].
      exists (x :: rows). split; reflexivity.
Qed.

Lemma Home_always_renders_witness :
  featured_failure unreachable_world (Some (Num 6))
  /\ exists view,
      outcome (Home unreachable_world []) = Returned view
      /\ home_featured view = None.
Proof.
  assert (H : featured_failure unreachable_world (Some (Num 6)))
    by (right; right; right; left; eexists; reflexivity).
  split; [exact H|].
  destruct (Home_always_renders unreachable_world []) as (view & Hv & _ & _ & Hf & _).
  exists view. split; [exact Hv | exact (Hf H)].
Defined.

(** X15.  The products page over the store shows its empty state exactly
    when no row matches the filter; otherwise it mounts the component
    with the first twelve rows of the listing, the count of matching rows
    as total and [initialLimit = 12], and "load more" is offered from the
    start exactly when more than twelve rows match.  A backend error is
    thrown by the page, never rendered as the empty state. *)
Theorem products_page_first_render
    (rows : list Product) (c sort : option string) (log : list LogLine) :
  let w := store_world (products_store rows) in
  (outcome (ProductsPage w c sort log) = Returned None
   <-> filter (spec_page_filter c) rows = [])
  /\ (forall props,
        outcome (ProductsPage w c sort log) = Returned (Some props) ->
        initialProducts props = firstn 12 (listing rows c sort)
        /\ total_ props = Z.of_nat (List.length (filter (spec_page_filter c) rows))
        /\ initialLimit props = 12
        /\ (hasMore props (mount props) = true <-> 12 < total_ props))
  /\ (forall (w' : World) r e,
        configured w' ->
        await_rows w' (getProductsWithPagination_query c (or_string sort "newest")
                         (Num 12) (Num 0)) = Returned r ->
        error r = Some e ->
        outcome (ProductsPage w' c sort log) = Thrown (ErrorObj load_error_message)).
Proof.
  intros w. split; [|split].
  - unfold w, products_store. rewrite ProductsPage_store. cbn [outcome fst].
    fold (listing rows c sort).
    rewrite (inclusive_range_window 0 12 (listing rows c sort)) by lia.
    change (Z.to_nat 12) with 12%nat. change (Z.to_nat 0) with 0%nat. cbn [skipn].
    pose proof (listing_length rows c sort) as Hl.
    destruct (listing rows c sort) as [|x l] eqn:E.
    + cbn. split; [intros _|reflexivity].
      destruct (filter (spec_page_filter c) rows); [reflexivity|discriminate].
    + cbn [firstn List.length].
      replace (0 <? Z.of_nat (S (List.length (firstn 11 l)))) with true
        by (symmetry; apply Z.ltb_lt; lia).
      split; [discriminate|]. intros H. rewrite H in Hl. discriminate.
  - intros props Hp.
    destruct (ProductsPage_props rows c sort log props Hp) as [-> Hne].
    cbn [initialProducts total_ initialLimit]. split; [reflexivity|].
    split; [now rewrite listing_length|]. split; [reflexivity|].
    unfold hasMore. cbn [mount products_state total_ initialProducts].
    rewrite length_firstn. split; intros H.
    + apply Z.ltb_lt in H. lia.
    + apply Z.ltb_lt. lia.
  - intros w' r e Hw Hr He. unfold ProductsPage, bind.
    rewrite (getProductsWithPagination_configured w' c (Some (or_string sort "newest"))
               (Some (Num 12)) (Some (Num 0)) log r Hw Hr).
    now rewrite He.
Qed.

Lemma products_page_first_render_witness :
  outcome (ProductsPage (store_world (products_store thirty_products)) None None [])
  = Returned (Some props30)
  /\ total_ props30 = Z.of_nat (List.length (filter (spec_page_filter None) thirty_products)).
Proof.
  assert (Hpage :
            outcome (ProductsPage (store_world (products_store thirty_products))
                       None None [])
            = Returned (Some props30)) by (vm_compute; reflexivity).
  split; [exact Hpage|].
  apply (proj1 (proj2 (products_page_first_render thirty_products None None []))
           props30 Hpage).
Defined.
